(** * travel_agent: delegation core and streaming executor

    A shallow embedding of the logic the repository owns:

    - [host_agent/routing_agent.py]: [RoutingAgent.send_message], the
      delegation of one task to a named remote agent; the discovery of the
      remote agents and the roster; the session helpers
      [before_model_callback] and [check_active_agent]; the part and
      payload helpers;
    - [travel_agent/agent_executor.py]: the content-part conversions
      [_convert_a2a_part_to_genai] / [_convert_genai_part_to_a2a], the
      streaming loop [_process_request], and the entry points [execute]
      and [cancel];
    - [budget_agent/agent.py] and [travel_agent/agent.py]: the check of
      the configuration and the model settings of the two factories.

    Python objects are modelled as follows.  A [str] is a [string] of 8-bit
    code points.  A dict used as a map ([tool_context.state],
    [remote_agent_connections]) is a [gmap string _]; a dict that is built
    and returned (an outcome, a task dump) is an association list inside
    [VDict].  An exception is a record of its class name and its text.  What
    the remote send raises is an instance of [Exception]; in the executor,
    where the event loop can also deliver a cancellation, the signals that
    [except Exception] lets through are told apart by [is_Exception].
    Stateful code runs in a state-and-exception monad; everything the code
    obtains from outside (uuid bits, the clock, the remote agent, the
    telemetry endpoint, the session service, the runner's event stream) is
    a field of an explicit environment record.  What the imported
    libraries decide is a parameter as well: the validation of a field
    and the text of a library error are fields of the executor's library
    record, the dump of a task is a field of the environment of
    [send_message]. *)

From Stdlib Require Import String Ascii List ZArith NArith Lia Bool.
From stdpp Require Import base option list gmap sets strings.

Open Scope string_scope.
Set Warnings "-register-all".

(* ===================================================================== *)
(** ** Python values, strings and exceptions *)
(* ===================================================================== *)

Module Py.

(** The JSON-like values a session state or a returned dict can hold.
    [VNum] holds a number of seconds in hundredths (what
    [round(_, 2)] keeps of a clock difference). *)
Inductive pyval : Type :=
| VNone
| VBool (b : bool)
| VInt (z : Z)
| VNum (hundredths : Z)
| VStr (s : string)
| VList (l : list pyval)
| VDict (d : list (string * pyval)).

(** Python truthiness ([if v:], [not v], [a and b]). *)
Definition truthy (v : pyval) : bool :=
  match v with
  | VNone => false
  | VBool b => b
  | VInt z => negb (Z.eqb z 0)
  | VNum z => negb (Z.eqb z 0)
  | VStr s => negb (String.eqb s "")
  | VList l => match l with [] => false | _ => true end
  | VDict d => match d with [] => false | _ => true end
  end.

(** [s == v] for a [str] [s]: equal strings, and [False] against a value of
    any other type. *)
Definition str_eq (s : string) (v : pyval) : bool :=
  match v with
  | VStr s' => String.eqb s s'
  | _ => false
  end.

(** Lookup in a dict literal: the last binding of a key wins, which is what
    building the dict left to right gives. *)
Fixpoint dict_get (k : string) (d : list (string * pyval)) : option pyval :=
  match d with
  | [] => None
  | (k', v) :: r =>
      match dict_get k r with
      | Some v' => Some v'
      | None => if String.eqb k k' then Some v else None
      end
  end.

(** [d[k]] on a returned dict value. *)
Definition item (k : string) (v : pyval) : option pyval :=
  match v with
  | VDict d => dict_get k d
  | _ => None
  end.

(** *** str.lower, [in] on strings, str.replace of one character *)

(** [str.lower] on the code points below 256, the only ones a [string]
    of this development holds.  (On other code points Python's [lower]
    can change the length of a string; nothing below relies on the
    length of a lowered string.) *)

Definition lower_char (c : ascii) : ascii :=
  let n := N_of_ascii c in
  if ((65 <=? n) && (n <=? 90))%N then ascii_of_N (n + 32)
  else if ((192 <=? n) && (n <=? 222) && negb (n =? 215))%N
       then ascii_of_N (n + 32)
  else c.

Fixpoint lower (s : string) : string :=
  match s with
  | EmptyString => EmptyString
  | String c r => String (lower_char c) (lower r)
  end.

Fixpoint startswith (p s : string) : bool :=
  match p, s with
  | EmptyString, _ => true
  | String a p', String b s' => Ascii.eqb a b && startswith p' s'
  | String _ _, EmptyString => false
  end.

(** [needle in hay]. *)
Fixpoint str_in (needle hay : string) : bool :=
  startswith needle hay
  || match hay with
     | EmptyString => false
     | String _ r => str_in needle r
     end.

(** [s.replace(a, b)] for one-character [a] and [b]. *)
Fixpoint replace_char (a b : ascii) (s : string) : string :=
  match s with
  | EmptyString => EmptyString
  | String c r => String (if Ascii.eqb c a then b else c) (replace_char a b r)
  end.

(** The mathematical reading of [in]: [hay] is [pre ++ needle ++ post]. *)
Definition Substring (needle hay : string) : Prop :=
  exists pre post, hay = pre +:+ needle +:+ post.

(** *** uuid.uuid4 and its [str] *)

Definition hex_digit (n : N) : ascii :=
  match n with
  | 0 => "0" | 1 => "1" | 2 => "2" | 3 => "3" | 4 => "4" | 5 => "5"
  | 6 => "6" | 7 => "7" | 8 => "8" | 9 => "9" | 10 => "a" | 11 => "b"
  | 12 => "c" | 13 => "d" | 14 => "e" | _ => "f"
  end%N%char.

(** The [k] low hex digits of [n], most significant first, before [acc]. *)
Fixpoint hex_fixed (k : nat) (n : N) (acc : string) : string :=
  match k with
  | O => acc
  | S k' => hex_fixed k' (n / 16)%N (String (hex_digit (n mod 16)%N) acc)
  end.

(** [uuid.uuid4()] sets the variant and version bits of 128 random bits. *)
Definition uuid4_int (random_bits : N) : N :=
  let i := (random_bits mod 2 ^ 128)%N in
  let i := N.ldiff i (N.shiftl 0xc000 48) in
  let i := N.lor i (N.shiftl 0x8000 48) in
  let i := N.ldiff i (N.shiftl 0xf000 64) in
  N.lor i (N.shiftl 4 76).

(** [str(uuid)]: 8-4-4-4-12 hex digits. *)
Definition uuid_str (i : N) : string :=
  hex_fixed 8 (N.shiftr i 96)
    (String "-" (hex_fixed 4 (N.shiftr i 80)
      (String "-" (hex_fixed 4 (N.shiftr i 64)
        (String "-" (hex_fixed 4 (N.shiftr i 48)
          (String "-" (hex_fixed 12 i ""))))))))%char.

(** *** Exceptions and the state-and-exception monad *)

Record Exn : Type := mkExn { exn_class : string; exn_text : string }.

Inductive Res (A : Type) : Type :=
| Ret (a : A)
| Raise (e : Exn).
Arguments Ret {A} a.
Arguments Raise {A} e.

Definition M (St A : Type) : Type := St -> Res A * St.

Definition ret {St A} (a : A) : M St A := fun s => (Ret a, s).
Definition raise {St A} (e : Exn) : M St A := fun s => (Raise e, s).
Definition bind {St A B} (m : M St A) (k : A -> M St B) : M St B :=
  fun s => match m s with
           | (Ret a, s') => k a s'
           | (Raise e, s') => (Raise e, s')
           end.
(** [try: m  except Exception as e: h e], for a body whose exceptions
    are instances of [Exception]. *)
Definition try_except {St A} (m : M St A) (h : Exn -> M St A) : M St A :=
  fun s => match m s with
           | (Ret a, s') => (Ret a, s')
           | (Raise e, s') => h e s'
           end.
(** The subclasses of [BaseException] that are not subclasses of
    [Exception]; [except Exception] does not catch them. *)
Definition is_Exception (e : Exn) : bool :=
  negb (String.eqb (exn_class e) "CancelledError"
        || String.eqb (exn_class e) "KeyboardInterrupt"
        || String.eqb (exn_class e) "SystemExit"
        || String.eqb (exn_class e) "GeneratorExit").
(** [try: m  except Exception as e: h e], where [m] may also be ended by
    a signal that is not an [Exception]. *)
Definition try_except_Exception {St A} (m : M St A) (h : Exn -> M St A)
  : M St A :=
  fun s => match m s with
           | (Ret a, s') => (Ret a, s')
           | (Raise e, s') => if is_Exception e then h e s' else (Raise e, s')
           end.
(** [try: m  finally: f]. *)
Definition try_finally {St A} (m : M St A) (f : M St unit) : M St A :=
  fun s => match m s with
           | (r, s') =>
               match f s' with
               | (Ret _, s'') => (r, s'')
               | (Raise e, s'') => (Raise e, s'')
               end
           end.
(** [[f(x) for x in l]] with an [f] that can raise. *)
Fixpoint comprehension {A B} (f : A -> Res B) (l : list A) : Res (list B) :=
  match l with
  | [] => Ret []
  | x :: r =>
      match f x with
      | Raise e => Raise e
      | Ret y =>
          match comprehension f r with
          | Raise e => Raise e
          | Ret ys => Ret (y :: ys)
          end
      end
  end.

Definition get {St} : M St St := fun s => (Ret s, s).
Definition modify {St} (f : St -> St) : M St unit := fun s => (Ret tt, f s).

End Py.

Import Py.

Notation "'do' x <- m ; k" := (bind m (fun x => k))
  (at level 10, x name, m at level 100, k at level 200,
   format "'[v' 'do'  x  <-  m ; '/' k ']'").
Notation "m ;; k" := (bind m (fun _ => k))
  (at level 100, k at level 200, right associativity).

(* ===================================================================== *)
(** ** travel_agent/agent_executor.py *)
(* ===================================================================== *)

Module Executor.

(** *** The external (A2A) content parts

    [a2a.types.Part] is a wrapper whose [root] is a [TextPart], a
    [FilePart] or a [DataPart]; the embedding identifies a part with its
    root.  [name] and [metadata] are the fields the conversions do not
    carry over. *)
Inductive File : Type :=
| FileWithUri (uri : string) (mime_type : option string) (name : option string)
| FileWithBytes (bytes : string) (mime_type : option string)
    (name : option string).

Inductive A2APart : Type :=
| TextPart (text : string) (metadata : option pyval)
| FilePart (file : File) (metadata : option pyval)
| DataPart (data : pyval) (metadata : option pyval).

(** *** The internal (GenAI) content parts: [types.Part] with the optional
    fields the executor reads, and [function_call] standing for the
    fields it never reads. *)
(** Every field of [types.FileData] and [types.Blob] is optional. *)
Record FileData : Type :=
  mkFileData { file_uri : option string; fd_mime_type : option string }.
(** [data] holds the decoded content, as bytes. *)
Record Blob : Type :=
  mkBlob { data : option string; blob_mime_type : option string }.
Record GenaiPart : Type := mkGenaiPart {
  text : option string;
  file_data : option FileData;
  inline_data : option Blob;
  function_call : option string
}.

(** [types.Part(text=...)], [types.Part(file_data=...)],
    [types.Part(inline_data=...)]: every other field is [None]. *)
Definition Part_text (t : string) : GenaiPart :=
  mkGenaiPart (Some t) None None None.
Definition Part_file_data (f : FileData) : GenaiPart :=
  mkGenaiPart None (Some f) None None.
Definition Part_inline_data (b : Blob) : GenaiPart :=
  mkGenaiPart None None (Some b) None.

(** Truthiness of the optional fields: a [str] is truthy when it is not
    empty, a [FileData] or [Blob] object always is, [None] never. *)
Definition truthy_text (t : option string) : bool :=
  match t with
  | Some s => negb (String.eqb s "")
  | None => false
  end.
Definition truthy_obj {A} (o : option A) : bool :=
  match o with
  | Some _ => true
  | None => false
  end.

(** [type(part)] as the f-string prints it. *)
Definition type_repr (p : A2APart) : string :=
  match p with
  | TextPart _ _ => "<class 'a2a.types.TextPart'>"
  | FilePart _ _ => "<class 'a2a.types.FilePart'>"
  | DataPart _ _ => "<class 'a2a.types.DataPart'>"
  end.

Definition ValueError (msg : string) : Exn := mkExn "ValueError" msg.

(** What the imported libraries decide for the executor.
    - [genai_repr]: [f"{part}"], the printed form of a GenAI part.
    - [b64decode]: the validation of [types.Blob.data] given a [str]: the
      base64 decoding of the string, or nothing when the string is not
      valid base64.
    - [utf8decode]: the validation of [FileWithBytes.bytes] given
      [bytes]: their UTF-8 decoding, or nothing when they are not UTF-8.
    - [library_message]: the text of an error raised inside a library,
      by the place that raises it. *)
Record Library : Type := mkLibrary {
  genai_repr : GenaiPart -> string;
  b64decode : string -> option string;
  utf8decode : string -> option string;
  library_message : string -> string
}.

Section GenaiToA2A.

Variable lib : Library.

(** A pydantic [ValidationError] raised while building the named field. *)
Definition ValidationError (field : string) : Exn :=
  mkExn "ValidationError" (library_message lib field).

Definition _convert_a2a_part_to_genai (part : A2APart) : Res GenaiPart :=
  match part with
  | TextPart t _ => Ret (Part_text t)
  | FilePart (FileWithUri u m _) _ =>
      Ret (Part_file_data (mkFileData (Some u) m))
  | FilePart (FileWithBytes b m _) _ =>
      match b64decode lib b with
      | Some content => Ret (Part_inline_data (mkBlob (Some content) m))
      | None => Raise (ValidationError "Blob.data")
      end
  | DataPart _ _ =>
      Raise (ValueError ("Unsupported part type: " +:+ type_repr part))
  end.

(** [if part.text:] holds exactly when [text] is a non-empty string; a
    [FileData] or [Blob] object is truthy whenever it is present.  The
    content of a blob goes into [FileWithBytes.bytes] as it is, without
    being encoded again. *)
Definition _convert_genai_part_to_a2a (part : GenaiPart) : Res A2APart :=
  match text part with
  | Some (String c r) => Ret (TextPart (String c r) None)
  | _ =>
      match file_data part with
      | Some fd =>
          match file_uri fd with
          | Some u => Ret (FilePart (FileWithUri u (fd_mime_type fd) None) None)
          | None => Raise (ValidationError "FileWithUri.uri")
          end
      | None =>
          match inline_data part with
          | Some b =>
              match data b with
              | Some content =>
                  match utf8decode lib content with
                  | Some s =>
                      Ret (FilePart
                             (FileWithBytes s (blob_mime_type b) None) None)
                  | None => Raise (ValidationError "FileWithBytes.bytes")
                  end
              | None => Raise (ValidationError "FileWithBytes.bytes")
              end
          | None =>
              Raise (ValueError
                       ("Unsupported GenAI part: " +:+ genai_repr lib part))
          end
      end
  end.

(** *** The task-update sink and the runner's events *)

Inductive TaskState : Type := submitted | working | completed | failed.

(** An element of the list handed to [add_artifact]: a part, or the
    [Artifact] that [new_text_artifact(name, text)] builds. *)
Inductive ArtifactArg : Type :=
| ArgPart (p : A2APart)
| ArgArtifact (name text : string).

(** What the sink receives: [update_status(state, message=, final=)] with
    the parts of [new_agent_message(parts)], or [add_artifact(parts)]. *)
Inductive Update : Type :=
| StatusUpdate (state : TaskState) (message : option (list A2APart))
    (final : bool)
| ArtifactUpdate (parts : list ArtifactArg).

Record Content : Type := mkContent { parts : option (list GenaiPart) }.

(** An ADK event: the answers of its methods [is_final_response()] and
    [get_function_calls()], and its [content]. *)
Record Event : Type := mkEvent {
  is_final_response : bool;
  get_function_calls : list string;
  content : option Content
}.

(** What [runner.run_async(...)] does when iterated: it yields [yielded]
    and then either stops or raises [raised]. *)
Record Stream : Type := mkStream {
  yielded : list Event;
  raised : option Exn
}.

Record Session : Type := mkSession { id : string }.

(** The executor's collaborators. *)
Record Runner : Type := mkRunner {
  get_session : string -> Res (option Session);
  create_session : string -> Res Session;
  run_async : string -> string -> list GenaiPart -> Stream
}.

(** The executor's mutable state: [self._active_sessions] and what the
    task updater has emitted so far, oldest first. *)
Record ExecState : Type := mkExecState {
  _active_sessions : gset string;
  emitted : list Update
}.

Definition DEFAULT_USER_ID : string := "self".

Definition update_status (st : TaskState) (message : option (list A2APart))
    (final : bool) : M ExecState unit :=
  modify (fun s => mkExecState (_active_sessions s)
                     (emitted s ++ [StatusUpdate st message final])).

Definition lift {A} (r : Res A) : M ExecState A := fun s => (r, s).

Definition is_part (a : ArtifactArg) : bool :=
  match a with
  | ArgPart _ => true
  | ArgArtifact _ _ => false
  end.

(** [task_updater.add_artifact(parts)] builds [Artifact(parts=parts)]
    before it emits anything; that validation accepts parts only. *)
Definition add_artifact (ps : list ArtifactArg) : M ExecState unit :=
  if forallb is_part ps then
    modify (fun s => mkExecState (_active_sessions s)
                       (emitted s ++ [ArtifactUpdate ps]))
  else raise (ValidationError "Artifact.parts").

(** [event.content.parts] as the object of a [for]: an [AttributeError]
    when [content] is [None], a [TypeError] when [parts] is. *)
Definition content_parts (ev : Event) : Res (list GenaiPart) :=
  match content ev with
  | None =>
      Raise (mkExn "AttributeError"
               "'NoneType' object has no attribute 'parts'")
  | Some c =>
      match parts c with
      | None => Raise (mkExn "TypeError" "'NoneType' object is not iterable")
      | Some ps => Ret ps
      end
  end.

(** [part.text or part.file_data or part.inline_data], as a condition. *)
Definition carries_content (p : GenaiPart) : bool :=
  truthy_text (text p) || truthy_obj (file_data p)
  || truthy_obj (inline_data p).

(** [[part.text for part in parts if part.text]]. *)
Definition text_fragments (ps : list GenaiPart) : list string :=
  omap (fun p => if truthy_text (text p) then text p else None) ps.

(** [[""].join(l)]. *)
Definition join (l : list string) : string :=
  fold_right String.append "" l.

(** The body of the [async for]; [true] stands for [break]. *)
Definition handle_event (ev : Event) : M ExecState bool :=
  if is_final_response ev then
    do ps <- lift (content_parts ev);
    do out <- lift (comprehension _convert_genai_part_to_a2a
                      (List.filter carries_content ps));
    (match out with
     | [] => ret tt
     | _ => add_artifact (List.map ArgPart out)
     end);;
    update_status completed None true;;
    ret true
  else
    match get_function_calls ev with
    | [] =>
        do ps <- lift (content_parts ev);
        (match text_fragments ps with
         | [] => add_artifact [ArgArtifact "stream" "."]
         | text_parts =>
             update_status working
               (Some [TextPart (join text_parts) None]) false
         end);;
        ret false
    | _ =>
        update_status working None false;;
        ret false
    end.

(** [async for event in stream: ...]. *)
Fixpoint consume (evs : list Event) (raised : option Exn) : M ExecState unit :=
  match evs with
  | [] =>
      match raised with
      | Some e => raise e
      | None => ret tt
      end
  | ev :: rest =>
      do stop <- handle_event ev;
      if (stop : bool) then ret tt else consume rest raised
  end.

Section ProcessRequest.

Variable runner : Runner.

Definition _upsert_session (session_id : string) : M ExecState Session :=
  do session <- lift (get_session runner session_id);
  match session with
  | None => lift (create_session runner session_id)
  | Some s => ret s
  end.

Definition _process_request (new_message : list GenaiPart)
    (session_id : string) : M ExecState unit :=
  do session_obj <- _upsert_session session_id;
  let session_id := id session_obj in
  modify (fun s => mkExecState ({[session_id]} ∪ _active_sessions s)
                     (emitted s));;
  try_finally
    (try_except_Exception
       (let stream := run_async runner session_id DEFAULT_USER_ID
                        new_message in
        consume (yielded stream) (raised stream))
       (fun e =>
          update_status failed
            (Some [TextPart
                     ("Sorry, something went wrong: " +:+ exn_text e) None])
            true))
    (modify (fun s => mkExecState (_active_sessions s ∖ {[session_id]})
                        (emitted s))).

End ProcessRequest.

End GenaiToA2A.

End Executor.

(* ===================================================================== *)
(** ** host_agent/routing_agent.py and remote_agent_connection.py *)
(* ===================================================================== *)

Module Routing.

(** *** Protocol types (a2a.types) *)

(** The message of a [MessageSendParams]: role, text parts, and the three
    correlation identifiers. *)
Record Message : Type := mkMessage {
  role : string;
  parts : list string;
  messageId : string;
  taskId : option string;
  contextId : option string
}.

Record SendMessageRequest : Type := mkRequest {
  id : string;
  params : Message
}.

(** A [Task] is seen through its fields, [None]-valued ones included;
    what a dump of it keeps is pydantic's to decide, see [model_dump]
    below. *)
Record Task : Type := mkTask { task_fields : list (string * pyval) }.

Inductive SendResult : Type :=
| ResultTask (t : Task)
| ResultMessage (m : Message).

(** [SendMessageResponse.root]. *)
Inductive SendMessageResponse : Type :=
| JSONRPCErrorResponse (code : Z) (message : string)
| SendMessageSuccessResponse (result : SendResult).

(** [MessageSendParams.model_validate(params_data)]: the string-typed
    fields accept a [str] only, [taskId] and [contextId] may be absent. *)
Definition ValidationError (field : string) : Exn :=
  mkExn "ValidationError" ("1 validation error for MessageSendParams: " +:+ field).

Definition validate_part (v : pyval) : Res string :=
  match item "text" v with
  | Some (VStr t) => Ret t
  | _ => Raise (ValidationError "message.parts")
  end.

Definition validate_optional_str (field : string) (m : pyval)
  : Res (option string) :=
  match item field m with
  | None => Ret None
  | Some VNone => Ret None
  | Some (VStr s) => Ret (Some s)
  | Some _ => Raise (ValidationError ("message." +:+ field))
  end.

Definition model_validate (params_data : pyval) : Res Message :=
  match item "message" params_data with
  | None => Raise (ValidationError "message")
  | Some m =>
      match item "role" m, item "parts" m, item "messageId" m with
      | Some (VStr r), Some (VList ps), Some (VStr mid) =>
          if negb (String.eqb r "user" || String.eqb r "agent")
          then Raise (ValidationError "message.role") else
          match comprehension validate_part ps with
          | Raise e => Raise e
          | Ret texts =>
              match validate_optional_str "taskId" m with
              | Raise e => Raise e
              | Ret tid =>
                  match validate_optional_str "contextId" m with
                  | Raise e => Raise e
                  | Ret cid => Ret (mkMessage r texts mid tid cid)
                  end
              end
          end
      | _, _, _ => Raise (ValidationError "message")
      end
  end.

(** *** The routing agent's surroundings *)

(** [RemoteAgentConnections]: the card and the address it was built from.
    The class defines neither [__bool__] nor [__len__], so an instance is
    always truthy. *)
Record RemoteAgentConnections : Type := mkConnection {
  card_name : string;
  card_description : string;
  agent_url : string
}.

Definition truthy_client (c : RemoteAgentConnections) : bool := true.

(** Everything [send_message] obtains from outside the process, in one
    run of it. *)
Record World : Type := mkWorld {
  remote_agent_connections : gmap string RemoteAgentConnections;
  (** the 128 random bits of the n-th [uuid.uuid4()] *)
  random_bits : nat -> N;
  (** the n-th reading of [time.time()], in hundredths of a second; a
      reading comes after whatever blocked before it (the remote agent,
      the telemetry endpoint), so two runs that differ in those differ
      in their clocks as well *)
  clock : nat -> Z;
  (** pydantic's [Task.model_dump(exclude_none=...)], by the value of
      the flag *)
  model_dump : bool -> Task -> pyval;
  (** [A2AClient.send_message] towards one remote agent *)
  agent_client_send :
    RemoteAgentConnections -> SendMessageRequest -> Res SendMessageResponse;
  (** [langfuse.get_current_trace_id()] *)
  get_current_trace_id : pyval;
  (** [requests.post]: [Some text] when it raises a
      [requests.RequestException] with that text *)
  requests_post : string -> pyval -> option string
}.

(** What the call does to the outside, in order. *)
Inductive Effect : Type :=
| SetState (key : string) (value : pyval)
| Send (agent_url : string) (request : SendMessageRequest)
| Post (url : string) (json : pyval).

(** The mutable part: [tool_context.state], how many uuids and clock
    readings were taken, and the effects so far, oldest first. *)
Record Heap : Type := mkHeap {
  state : gmap string pyval;
  uuids_drawn : nat;
  clock_reads : nat;
  effects : list Effect
}.

Definition ValueError (msg : string) : Exn := mkExn "ValueError" msg.
Definition TypeError (msg : string) : Exn := mkExn "TypeError" msg.
Definition UnboundLocalError (var : string) : Exn :=
  mkExn "UnboundLocalError"
    ("cannot access local variable '" +:+ var
     +:+ "' where it is not associated with a value").

Definition lift {A} (r : Res A) : M Heap A := fun h => (r, h).

Definition log (e : Effect) : M Heap unit :=
  modify (fun h => mkHeap (state h) (uuids_drawn h) (clock_reads h)
                     (effects h ++ [e])).

(** [state[key] = value]. *)
Definition state_set (key : string) (value : pyval) : M Heap unit :=
  modify (fun h => mkHeap (<[key := value]> (state h)) (uuids_drawn h)
                     (clock_reads h) (effects h));;
  log (SetState key value).

(** [state.get(key)]. *)
Definition state_get (key : string) : M Heap pyval :=
  do h <- get;
  ret (default VNone (state h !! key)).

(** [state[key] if key in state], as an option. *)
Definition state_lookup (key : string) : M Heap (option pyval) :=
  do h <- get;
  ret (state h !! key).

Section SendMessage.

Variable self : World.

(** [time.time()]. *)
Definition time_time : M Heap Z :=
  fun h => (Ret (clock self (clock_reads h)),
            mkHeap (state h) (uuids_drawn h) (S (clock_reads h)) (effects h)).

(** [str(uuid.uuid4())]. *)
Definition str_uuid4 : M Heap string :=
  fun h => (Ret (uuid_str (uuid4_int (random_bits self (uuids_drawn h)))),
            mkHeap (state h) (S (uuids_drawn h)) (clock_reads h) (effects h)).

(** [RemoteAgentConnections.send_message]. *)
Definition client_send_message (client : RemoteAgentConnections)
    (message_request : SendMessageRequest) : M Heap SendMessageResponse :=
  log (Send (agent_url client) message_request);;
  lift (agent_client_send self client message_request).

Definition trace_url : string :=
  "https://aks.agentix-xebia.com/agent-control-tower/api/observe/trace_id".

(** The push of the trace metadata; a [RequestException] is printed and
    dropped. *)
Definition push_trace (agent_name : string) : M Heap unit :=
  let trace_id := get_current_trace_id self in
  let agent_tracking_name :=
    replace_char "&" "_" (replace_char " " "_" (lower agent_name)) in
  let payload :=
    VDict [("agent_name", VStr agent_tracking_name);
           ("project_name", VStr "MakeEasyTravel");
           ("trace_id", trace_id);
           ("processed_status", VBool false)] in
  log (Post trace_url payload);;
  match requests_post self trace_url payload with
  | Some _ => ret tt
  | None => ret tt
  end.

Definition error_outcome (message agent_name : string) : pyval :=
  VDict [("status", VStr "error");
         ("message", VStr message);
         ("agent_name", VStr agent_name)].

(** Lines 252-264: the dict handed to [model_validate]. *)
Definition build_params_data (task : string)
    (message_id task_id context_id : pyval) : pyval :=
  VDict [("message",
          VDict ([("role", VStr "user");
                  ("parts", VList [VDict [("type", VStr "text");
                                          ("text", VStr task)]]);
                  ("messageId", message_id)]
                 ++ (if truthy task_id then [("taskId", task_id)] else [])
                 ++ (if truthy context_id
                     then [("contextId", context_id)] else [])))].

(** Lines 227-274: from the write of the active agent to the finished
    JSON-RPC request. *)
Definition build_request (agent_name task : string)
    (client : RemoteAgentConnections) : M Heap SendMessageRequest :=
  state_set "active_agent" (VStr agent_name);;
  if negb (truthy_client client)
  then raise (ValueError ("Client not available for " +:+ agent_name)) else
  do task_id <- state_get "task_id";
  do active <- state_get "active_agent";
  (* line 236 reads the local [params_data], which is bound at line 252 *)
  if truthy task_id && str_eq agent_name active
  then raise (UnboundLocalError "params_data") else
  do in_state <- state_lookup "context_id";
  do context_id <-
    (match in_state with
     | Some v => ret v
     | None => do u <- str_uuid4; ret (VStr u)
     end);
  do metadata_entry <- state_lookup "input_message_metadata";
  do message_id <-
    (match metadata_entry with
     | None => ret (VStr "")
     | Some (VDict d) =>
         match dict_get "message_id" d with
         | Some v => ret v
         | None => ret (VStr "")
         end
     | Some _ =>
         raise (TypeError "argument after ** must be a mapping")
     end);
  do message_id <-
    (if negb (truthy message_id)
     then do u <- str_uuid4; ret (VStr u)
     else ret message_id);
  let params_data := build_params_data task message_id task_id context_id in
  do message_send_params <- lift (model_validate params_data);
  ret (mkRequest (messageId message_send_params) message_send_params).

(** Lines 279-294: the body of [except Exception as e]. *)
Definition on_send_exception (agent_name : string) (e : Exn) : pyval :=
  let error_msg := exn_text e in
  if str_in "timeout" (lower error_msg)
     || str_in "timed out" (lower error_msg)
  then error_outcome
         ("Request to " +:+ agent_name
          +:+ " timed out. Please ensure the agent is running and try again.")
         agent_name
  else error_outcome
         ("Failed to communicate with " +:+ agent_name +:+ ": " +:+ error_msg)
         agent_name.

(** Lines 275-340: the call, and what is returned for each way it ends. *)
Definition dispatch (agent_name : string) (client : RemoteAgentConnections)
    (start_time : Z) (message_request : SendMessageRequest) : M Heap pyval :=
  do sent <-
    try_except
      (do send_response <- client_send_message client message_request;
       ret (inr send_response))
      (fun e => ret (inl (on_send_exception agent_name e)));
  match sent with
  | inl outcome => ret outcome
  | inr send_response =>
      push_trace agent_name;;
      match send_response with
      | JSONRPCErrorResponse _ _ =>
          ret (error_outcome
                 (agent_name +:+ " returned a non-success response")
                 agent_name)
      | SendMessageSuccessResponse (ResultMessage _) =>
          ret (error_outcome
                 (agent_name +:+ " returned a non-task response")
                 agent_name)
      | SendMessageSuccessResponse (ResultTask t) =>
          let task_result := model_dump self true t in
          do end_time <- time_time;
          ret (VDict [("status", VStr "success");
                      ("agent_name", VStr agent_name);
                      ("elapsed_seconds", VNum (end_time - start_time));
                      ("task", task_result)])
      end
  end.

Definition send_message (agent_name task : string) : M Heap pyval :=
  do start_time <- time_time;
  match remote_agent_connections self !! agent_name with
  | None => raise (ValueError ("Agent " +:+ agent_name +:+ " not found"))
  | Some client =>
      do message_request <- build_request agent_name task client;
      dispatch agent_name client start_time message_request
  end.

End SendMessage.

End Routing.


(* ===================================================================== *)
(** ** agent_executor.py: the entry points [execute] and [cancel] *)
(* ===================================================================== *)

Module ExecutorEntry.

Import Executor.

(** What [execute] and [cancel] read of a [RequestContext].  A task
    object is truthy whenever it is present; [message] is [None] when the
    request carries none. *)
Record RequestContext : Type := mkContext {
  task_id : string;
  context_id : string;
  current_task : option string;
  message : option (list A2APart)
}.

Section Entry.

Variable lib : Library.
Variable runner : Runner.

(** [context.message.parts]. *)
Definition message_parts (context : RequestContext) : Res (list A2APart) :=
  match message context with
  | None =>
      Raise (mkExn "AttributeError"
               "'NoneType' object has no attribute 'parts'")
  | Some ps => Ret ps
  end.

(** [types.UserContent(parts=...)] refuses an empty list of parts. *)
Definition UserContent (parts : list GenaiPart) : Res (list GenaiPart) :=
  match parts with
  | [] => Raise (mkExn "ValueError" (library_message lib "UserContent.parts"))
  | _ => Ret parts
  end.

Definition execute (context : RequestContext) : M ExecState unit :=
  (match current_task context with
   | None => update_status submitted None false
   | Some _ => ret tt
   end);;
  update_status working None false;;
  do inbound <- lift (message_parts context);
  do parts <- lift (comprehension (_convert_a2a_part_to_genai lib) inbound);
  do user_content <- lift (UserContent parts);
  _process_request lib runner user_content (context_id context).

(** The last line evaluates [UnsupportedOperationError("...")] first;
    that class is a pydantic model, which takes keyword arguments only,
    so the call raises a [TypeError] and no [ServerError] is built. *)
Definition cancel (context : RequestContext) : M ExecState unit :=
  let session_id := context_id context in
  do s <- get;
  (if bool_decide (session_id ∈ _active_sessions s)
   then modify (fun s => mkExecState (_active_sessions s ∖ {[session_id]})
                           (emitted s))
   else ret tt);;
  raise (mkExn "TypeError" (library_message lib "UnsupportedOperationError")).

End Entry.

End ExecutorEntry.

(* ===================================================================== *)
(** ** routing_agent.py: parts, payload and session helpers *)
(* ===================================================================== *)

Module RoutingSession.

Import Routing.




(** [uuid.hex]: 32 hex digits. *)
Definition uuid_hex (i : N) : string := hex_fixed 32 i "".

(** [if x:] for an optional string argument. *)
Definition given (x : option string) : bool :=
  match x with
  | Some (String _ _) => true
  | _ => false
  end.

Definition optional_entry (key : string) (x : option string)
  : list (string * pyval) :=
  match x with
  | Some s => if given x then [(key, VStr s)] else []
  | None => []
  end.

Section Session.

Variable self : World.
(** [f"{v}"] for a value that is not a [str], left to the library. *)
Variable format_value : pyval -> string.

Definition create_send_message_payload (text : string)
    (task_id context_id : option string) : M Heap pyval :=
  fun h =>
    (Ret (VDict
            [("message",
              VDict ([("role", VStr "user");
                      ("parts", VList [VDict [("type", VStr "text");
                                              ("text", VStr text)]]);
                      ("messageId",
                       VStr (uuid_hex
                               (uuid4_int (random_bits self (uuids_drawn h)))))]
                     ++ optional_entry "taskId" task_id
                     ++ optional_entry "contextId" context_id))]),
     mkHeap (state h) (S (uuids_drawn h)) (clock_reads h) (effects h)).

Definition fstring (v : pyval) : string :=
  match v with
  | VStr s => s
  | _ => format_value v
  end.

Definition check_active_agent (state : gmap string pyval) : pyval :=
  match state !! "session_id", state !! "session_active",
        state !! "active_agent" with
  | Some _, Some active, Some agent =>
      if truthy active
      then VDict [("active_agent", VStr (fstring agent))]
      else VDict [("active_agent", VStr "None")]
  | _, _, _ => VDict [("active_agent", VStr "None")]
  end.

Definition before_model_callback : M Heap unit :=
  do session_active <- state_lookup "session_active";
  if match session_active with
     | None => true
     | Some v => negb (truthy v)
     end
  then
    do session_id <- state_lookup "session_id";
    (match session_id with
     | None => do u <- str_uuid4 self; state_set "session_id" (VStr u)
     | Some _ => ret tt
     end);;
    state_set "session_active" (VBool true)
  else ret tt.

End Session.

End RoutingSession.

(* ===================================================================== *)
(** ** routing_agent.py: discovery of the remote agents *)
(* ===================================================================== *)

Module Directory.

Import Routing.

Record AgentCard : Type := mkCard { name : string; description : string }.

(** [d[k] = v] on a dict kept in insertion order: an existing key keeps
    its place, a new one goes last. *)
Fixpoint dict_set {V} (k : string) (v : V) (d : list (string * V))
  : list (string * V) :=
  match d with
  | [] => [(k, v)]
  | (k', v') :: r =>
      if String.eqb k k' then (k, v) :: r else (k', v') :: dict_set k v r
  end.

(** [d.get(k)] on such a dict. *)
Fixpoint dict_lookup {V} (k : string) (d : list (string * V)) : option V :=
  match d with
  | [] => None
  | (k', v) :: r => if String.eqb k k' then Some v else dict_lookup k r
  end.

(** The fields of a [RoutingAgent]. *)
Record RoutingAgent : Type := mkAgent {
  remote_agent_connections : list (string * RemoteAgentConnections);
  cards : list (string * AgentCard);
  agents : string
}.

(** [RoutingAgent.__init__]. *)
Definition init : RoutingAgent := mkAgent [] [] "".

Definition list_remote_agents (self : RoutingAgent) : list pyval :=
  match cards self with
  | [] => []
  | cs =>
      List.map (fun kc => VDict [("name", VStr (name (snd kc)));
                                 ("description",
                                  VStr (description (snd kc)))]) cs
  end.

(** [sep.join(l)]. *)
Fixpoint join_sep (sep : string) (l : list string) : string :=
  match l with
  | [] => ""
  | [x] => x
  | x :: r => x +:+ sep +:+ join_sep sep r
  end.

Definition newline : string := String (ascii_of_nat 10) "".

Section Discovery.

(** [A2ACardResolver(client, address).get_agent_card()]. *)
Variable get_agent_card : string -> Res AgentCard.
(** [json.dumps]. *)
Variable json_dumps : pyval -> string.

(** One turn of the loop over the addresses: an exception of the fetch is
    printed and the address skipped. *)
Definition try_address (self : RoutingAgent) (address : string)
  : RoutingAgent :=
  match get_agent_card address with
  | Ret card =>
      let remote_connection :=
        mkConnection (name card) (description card) address in
      mkAgent
        (dict_set (name card) remote_connection
           (remote_agent_connections self))
        (dict_set (name card) card (cards self))
        (agents self)
  | Raise _ => self
  end.

Definition _async_init_components (self : RoutingAgent)
    (remote_agent_addresses : list string) : RoutingAgent :=
  let self := fold_left try_address remote_agent_addresses self in
  let agent_info := List.map json_dumps (list_remote_agents self) in
  mkAgent (remote_agent_connections self) (cards self)
    (join_sep newline agent_info).

(** [RoutingAgent.create]. *)
Definition create (remote_agent_addresses : list string) : RoutingAgent :=
  _async_init_components init remote_agent_addresses.

End Discovery.

End Directory.

(* ===================================================================== *)
(** ** budget_agent/agent.py and travel_agent/agent.py *)
(* ===================================================================== *)

Module AgentConfig.

(** [s.rstrip(c)] for a one-character [c]. *)
Fixpoint rstrip (c : ascii) (s : string) : string :=
  match s with
  | EmptyString => EmptyString
  | String a r =>
      match rstrip c r with
      | EmptyString => if Ascii.eqb a c then EmptyString else String a ""
      | r' => String a r'
      end
  end.

Record LiteLlm : Type := mkLiteLlm {
  model : string;
  api_key : string;
  api_base : string;
  api_version : string;
  (** [temperature], in tenths *)
  temperature : Z;
  max_tokens : Z
}.

(** An [LlmAgent] without its prompt text; no tools are given. *)
Record LlmAgent : Type := mkLlmAgent {
  llm : LiteLlm;
  name : string;
  description : string;
  tools : list string
}.

(** Truthiness of what [os.getenv] returns. *)
Definition is_set (v : option string) : bool :=
  match v with
  | Some (String _ _) => true
  | _ => false
  end.

Definition missing_variables : Exn :=
  mkExn "ValueError"
    ("Missing required Azure OpenAI environment variables. "
     +:+ "Please set AZURE_OPENAI_ENDPOINT, AZURE_OPENAI_MODEL, and AZURE_OPENAI_API_KEY in your .env file.").

(** The body both factories share, up to the agent's name and
    description. *)
Definition create_agent (agent_name agent_description : string)
    (environ : gmap string string) : Res LlmAgent :=
  let AZURE_ENDPOINT := environ !! "AZURE_OPENAI_ENDPOINT" in
  let AZURE_MODEL := environ !! "AZURE_OPENAI_MODEL" in
  let AZURE_API_KEY := environ !! "AZURE_OPENAI_API_KEY" in
  match AZURE_ENDPOINT, AZURE_MODEL, AZURE_API_KEY with
  | Some endpoint, Some deployment, Some key =>
      if negb (is_set AZURE_ENDPOINT && is_set AZURE_MODEL
               && is_set AZURE_API_KEY)
      then Raise missing_variables
      else
        let MODEL_NAME := "azure/" +:+ deployment in
        Ret (mkLlmAgent
               (mkLiteLlm MODEL_NAME key (rstrip "/" endpoint +:+ "/")
                  "2024-08-01-preview" 7 4096)
               agent_name agent_description [])
  | _, _, _ => Raise missing_variables
  end.

Definition create_budget_agent : gmap string string -> Res LlmAgent :=
  create_agent "budget_agent"
    "Expert travel budget agent that estimates trip costs, breaks down expenses, and optimizes travel plans based on budget limits.".

Definition create_travel_planner_agent : gmap string string -> Res LlmAgent :=
  create_agent "travel_planner_agent"
    "Expert travel assistant that creates personalized, realistic trip plans and gives destination advice.".

End AgentConfig.

(* ===================================================================== *)
(** ** Vocabulary of the statements, and concrete scenarios *)
(* ===================================================================== *)

Module Spec.

Import Executor.

(** The parts the conversions support: text and the two file forms. *)
Definition supported (p : A2APart) : Prop :=
  match p with
  | DataPart _ _ => False
  | _ => True
  end.


(** The terminal update the streaming loop emits for an exception. *)
Definition failed_update (e : Exn) : Update :=
  StatusUpdate failed
    (Some [TextPart ("Sorry, something went wrong: " +:+ exn_text e) None])
    true.

(** The requests a list of effects sent over the network, oldest first. *)
Fixpoint sent_requests (l : list Routing.Effect) : list Routing.SendMessageRequest :=
  match l with
  | [] => []
  | Routing.Send _ r :: rest => r :: sent_requests rest
  | _ :: rest => sent_requests rest
  end.

(** The keys of the session state a list of effects wrote. *)
Fixpoint written_keys (l : list Routing.Effect) : list string :=
  match l with
  | [] => []
  | Routing.SetState k _ :: rest => k :: written_keys rest
  | _ :: rest => written_keys rest
  end.

(** The [contextId] a request carries for a [context_id] held in the
    session state: the string itself, or none for a falsy value. *)
Definition context_field (v : pyval) : option string :=
  match v with
  | VStr (String c r) => Some (String c r)
  | _ => None
  end.

(** The string of the n-th uuid the world hands out. *)
Definition nth_uuid (self : Routing.World) (n : nat) : string :=
  uuid_str (uuid4_int (Routing.random_bits self n)).

(** The heap after one reading of the clock. *)
Definition tick (h : Routing.Heap) : Routing.Heap :=
  Routing.mkHeap (Routing.state h) (Routing.uuids_drawn h)
    (S (Routing.clock_reads h)) (Routing.effects h).

(** The outcome [send_message] returns for a response, given the elapsed
    time; the task payload is the library's dump of the task with
    [exclude_none=True]. *)
Definition response_outcome (self : Routing.World) (agent_name : string)
    (elapsed : Z) (r : Routing.SendMessageResponse) : pyval :=
  match r with
  | Routing.JSONRPCErrorResponse _ _ =>
      Routing.error_outcome
        (agent_name +:+ " returned a non-success response") agent_name
  | Routing.SendMessageSuccessResponse (Routing.ResultMessage _) =>
      Routing.error_outcome
        (agent_name +:+ " returned a non-task response") agent_name
  | Routing.SendMessageSuccessResponse (Routing.ResultTask t) =>
      VDict [("status", VStr "success");
             ("agent_name", VStr agent_name);
             ("elapsed_seconds", VNum elapsed);
             ("task", Routing.model_dump self true t)]
  end.

(** The test of line 281 on an exception text. *)
Definition timeout_text (error_msg : string) : bool :=
  str_in "timeout" (lower error_msg) || str_in "timed out" (lower error_msg).

End Spec.

Module Scenario.

Import Executor Routing.

Definition genai_repr (p : GenaiPart) : string := "Part(...)".

(** The value of a character of the standard base64 alphabet. *)
Definition b64_value (c : ascii) : option N :=
  let n := N_of_ascii c in
  if ((65 <=? n) && (n <=? 90))%N then Some (n - 65)%N
  else if ((97 <=? n) && (n <=? 122))%N then Some (n - 71)%N
  else if ((48 <=? n) && (n <=? 57))%N then Some (n + 4)%N
  else if (n =? 43)%N then Some 62%N
  else if (n =? 47)%N then Some 63%N
  else None.

(** Padded base64 in the standard alphabet, four characters at a time. *)
Fixpoint b64decode (s : string) : option string :=
  match s with
  | EmptyString => Some EmptyString
  | String a (String b (String c (String d r))) =>
      match b64_value a, b64_value b with
      | Some x, Some y =>
          let b1 := ascii_of_N (x * 4 + y / 16) in
          if Ascii.eqb c "="
          then if Ascii.eqb d "=" && String.eqb r ""
               then Some (String b1 "") else None
          else
            match b64_value c with
            | Some z =>
                let b2 := ascii_of_N ((y mod 16) * 16 + z / 4) in
                if Ascii.eqb d "="
                then if String.eqb r ""
                     then Some (String b1 (String b2 "")) else None
                else
                  match b64_value d with
                  | Some w =>
                      let b3 := ascii_of_N ((z mod 4) * 64 + w) in
                      match b64decode r with
                      | Some rest =>
                          Some (String b1 (String b2 (String b3 rest)))
                      | None => None
                      end
                  | None => None
                  end
            | None => None
            end
      | _, _ => None
      end
  | _ => None
  end.

(** UTF-8 as far as the code points of a [string] go: one byte below 128,
    or one of the lead bytes 0xC2, 0xC3 and a continuation byte; any
    other byte is refused. *)
Fixpoint utf8decode (s : string) : option string :=
  match s with
  | EmptyString => Some EmptyString
  | String a r =>
      let n := N_of_ascii a in
      if (n <? 128)%N then
        match utf8decode r with
        | Some rest => Some (String a rest)
        | None => None
        end
      else
        match r with
        | String b r' =>
            let k := N_of_ascii b in
            if ((n =? 194) || (n =? 195))%N && (128 <=? k)%N && (k <? 192)%N
            then match utf8decode r' with
                 | Some rest =>
                     Some (String (ascii_of_N ((n - 192) * 64 + (k - 128)))
                             rest)
                 | None => None
                 end
            else None
        | EmptyString => None
        end
  end.

Definition lib : Library :=
  mkLibrary genai_repr b64decode utf8decode
    (fun place => "invalid value for " +:+ place).

(** A session service that knows no session yet, and a runner whose
    stream yields one partial text and then breaks. *)
Definition broken_stream : Stream :=
  mkStream
    [mkEvent false []
       (Some (mkContent (Some [Part_text "Looking"; Part_text " up"])))]
    (Some (mkExn "RuntimeError" "model unavailable")).

Definition runner : Runner :=
  mkRunner (fun _ => Ret None) (fun sid => Ret (mkSession sid))
    (fun _ _ _ => broken_stream).

Definition idle : ExecState := mkExecState ∅ [].

(** Two registered agents; uuid bits that differ from draw to draw. *)
Definition budget : RemoteAgentConnections :=
  mkConnection "BudgetAgent" "Estimates trip costs" "http://0.0.0.0:10007".
Definition travel : RemoteAgentConnections :=
  mkConnection "TravelAgent" "Plans trips" "http://0.0.0.0:10001".

Definition task_t1 : Task :=
  mkTask [("id", VStr "t1"); ("status", VStr "completed");
          ("history", VNone)].

(** A dump that keeps the fields as they are and, when asked to, leaves
    out those that are [None]. *)
Definition dump (exclude_none : bool) (t : Task) : pyval :=
  VDict (List.filter
           (fun kv => match snd kv with
                      | VNone => negb exclude_none
                      | _ => true
                      end) (task_fields t)).

Definition world (answer : Res SendMessageResponse) : World :=
  mkWorld {[ "BudgetAgent" := budget; "TravelAgent" := travel ]}
    (fun n => N.of_nat n) (fun n => (Z.of_nat n * 150)%Z) dump
    (fun _ _ => answer) (VStr "trace-1") (fun _ _ => None).

Definition answers_t1 : World :=
  world (Ret (SendMessageSuccessResponse (ResultTask task_t1))).

Definition fresh (st : gmap string pyval) : Heap := mkHeap st 0 0 [].

End Scenario.

(* ===================================================================== *)
(** ** Vocabulary for the remaining functions *)
(* ===================================================================== *)

Module SpecMore.

Import Executor.

(** A status update sent with [final=True]. *)
Definition is_terminal (u : Update) : bool :=
  match u with
  | StatusUpdate _ _ final => final
  | ArtifactUpdate _ => false
  end.

(** What [execute] reports before it looks at the message. *)
Definition opening (context : ExecutorEntry.RequestContext) : list Update :=
  (match ExecutorEntry.current_task context with
   | None => [StatusUpdate submitted None false]
   | Some _ => []
   end ++ [StatusUpdate working None false])%list.

(** The artifact of a final response, if it has any part to show. *)
Definition final_artifact (qs : list A2APart) : list Update :=
  match qs with
  | [] => []
  | _ => [ArtifactUpdate (List.map ArgPart qs)]
  end.

(** An event the non-final branch handles without an exception: a tool
    call in progress, or partial content with at least one non-empty
    text. *)
Definition progressing (ev : Event) : Prop :=
  get_function_calls ev ≠ []
  \/ exists ps, content_parts ev = Ret ps /\ text_fragments ps ≠ [].

(** The keys of a dict kept as a list of entries. *)
Definition keys {V} (d : list (string * V)) : list string := List.map fst d.

(** [state["session_active"]] is there and truthy. *)
Definition session_is_active (state : gmap string pyval) : bool :=
  match state !! "session_active" with
  | Some v => truthy v
  | None => false
  end.

(** The same world with another telemetry endpoint and trace id, and
    with the clock that goes with them. *)
Definition with_telemetry (self : Routing.World) (trace_id : pyval)
    (post : string -> pyval -> option string) (clock : nat -> Z)
  : Routing.World :=
  Routing.mkWorld (Routing.remote_agent_connections self)
    (Routing.random_bits self) clock (Routing.model_dump self)
    (Routing.agent_client_send self) trace_id post.

(** The entries of an outcome other than the one under [key]. *)
Definition without (key : string) (outcome : pyval) : pyval :=
  match outcome with
  | VDict d => VDict (List.filter (fun kv => negb (String.eqb (fst kv) key)) d)
  | _ => outcome
  end.

(** Two ways a call can end are the same but for the entry under [key]
    of the outcome: the same exception, or outcomes that agree on every
    other entry. *)
Definition same_but (key : string) (r r' : Res pyval) : Prop :=
  match r, r' with
  | Ret o, Ret o' => without key o = without key o'
  | Raise e, Raise e' => e = e'
  | _, _ => False
  end.

(** The same world with the directory that discovery produced. *)
Definition with_directory (self : Routing.World)
    (agent : Directory.RoutingAgent) : Routing.World :=
  Routing.mkWorld (list_to_map (Directory.remote_agent_connections agent))
    (Routing.random_bits self) (Routing.clock self)
    (Routing.model_dump self)
    (Routing.agent_client_send self) (Routing.get_current_trace_id self)
    (Routing.requests_post self).

(** The address answered with a card. *)
Definition reachable (get_agent_card : string -> Res Directory.AgentCard)
    (address : string) : bool :=
  match get_agent_card address with
  | Ret _ => true
  | Raise _ => false
  end.

(** The two dicts of a routing agent belong together: same names in the
    same order, none twice, and the connection under a name was built from
    the card under that name, fetched from the connection's address. *)
Definition consistent (get_agent_card : string -> Res Directory.AgentCard)
    (addresses : list string) (agent : Directory.RoutingAgent) : Prop :=
  keys (Directory.remote_agent_connections agent)
  = keys (Directory.cards agent)
  /\ NoDup (keys (Directory.cards agent))
  /\ forall n c,
       Directory.dict_lookup n (Directory.remote_agent_connections agent)
       = Some c ->
       exists card,
         Directory.dict_lookup n (Directory.cards agent) = Some card
         /\ Directory.name card = n
         /\ c = Routing.mkConnection n (Directory.description card)
                  (Routing.agent_url c)
         /\ Routing.agent_url c ∈ addresses
         /\ get_agent_card (Routing.agent_url c) = Ret card.

(** The names a roster shows. *)
Definition roster_names (roster : list pyval) : list (option pyval) :=
  List.map (item "name") roster.

(** What a factory may do with an environment: fail with the one
    configuration error because a variable is unset or empty, or return an
    agent of the given name built from the three values. *)
Definition fails_or_configured (agent_name : string)
    (environ : gmap string string) (r : Res AgentConfig.LlmAgent) : Prop :=
  match r with
  | Raise e =>
      e = AgentConfig.missing_variables
      /\ AgentConfig.is_set (environ !! "AZURE_OPENAI_ENDPOINT")
         && AgentConfig.is_set (environ !! "AZURE_OPENAI_MODEL")
         && AgentConfig.is_set (environ !! "AZURE_OPENAI_API_KEY") = false
  | Ret agent =>
      exists endpoint deployment key,
        environ !! "AZURE_OPENAI_ENDPOINT" = Some endpoint
        /\ environ !! "AZURE_OPENAI_MODEL" = Some deployment
        /\ environ !! "AZURE_OPENAI_API_KEY" = Some key
        /\ endpoint ≠ "" /\ deployment ≠ "" /\ key ≠ ""
        /\ AgentConfig.model (AgentConfig.llm agent) = "azure/" +:+ deployment
        /\ AgentConfig.api_key (AgentConfig.llm agent) = key
        /\ AgentConfig.name agent = agent_name
        /\ AgentConfig.tools agent = []
  end.

(** [n] copies of a character. *)
Fixpoint repeat_char (c : ascii) (n : nat) : string :=
  match n with
  | O => ""
  | S n' => String c (repeat_char c n')
  end.

(** [s.endswith(c)] for a one-character [c]. *)
Fixpoint ends_with (c : ascii) (s : string) : bool :=
  match s with
  | EmptyString => false
  | String a EmptyString => Ascii.eqb a c
  | String _ r => ends_with c r
  end.

(** The characters of a string. *)
Fixpoint chars (s : string) : list ascii :=
  match s with
  | EmptyString => []
  | String a r => a :: chars r
  end.

End SpecMore.

Module ScenarioMore.

Import Executor.

(** A stream that yields two text fragments and then just ends. *)
Definition unfinished_stream : Stream :=
  mkStream
    [mkEvent false []
       (Some (mkContent (Some [Part_text "Day 1: "; Part_text "Asakusa"])));
     mkEvent false ["search_flights"] None]
    None.

Definition unfinished_runner : Runner :=
  mkRunner (fun _ => Ret None) (fun sid => Ret (mkSession sid))
    (fun _ _ _ => unfinished_stream).

(** A final answer in two parts, with events the loop never reaches. *)
Definition answered_stream : Stream :=
  mkStream
    [mkEvent true []
       (Some (mkContent (Some [Part_text "Day 1: Asakusa";
                               Part_text "Day 2: Nikko"])));
     mkEvent false [] None]
    (Some (mkExn "RuntimeError" "too late")).

(** The first bytes of a PNG file; they are not UTF-8. *)
Definition png_magic : string :=
  String (ascii_of_nat 137) "PNG".

(** A final answer with a text and an image held inline. *)
Definition binary_stream : Stream :=
  mkStream
    [mkEvent true []
       (Some (mkContent
                (Some [Part_text "Your ticket";
                       Part_inline_data
                         (mkBlob (Some png_magic) (Some "image/png"))])))]
    None.

(** A stream with a tool call, then an event whose only part is an
    empty text, then the final answer. *)
Definition silent_stream : Stream :=
  mkStream
    [mkEvent false ["search_flights"] None;
     mkEvent false [] (Some (mkContent (Some [Part_text ""])));
     mkEvent true [] (Some (mkContent (Some [Part_text "Day 1: Asakusa"])))]
    None.

Definition silent_runner : Runner :=
  mkRunner (fun _ => Ret None) (fun sid => Ret (mkSession sid))
    (fun _ _ _ => silent_stream).

Definition busy : ExecState := mkExecState {[ "s7" ]} [].

Definition new_task (parts : list A2APart) : ExecutorEntry.RequestContext :=
  ExecutorEntry.mkContext "task-1" "s1" None (Some parts).

(** Discovery: two addresses answer, one does not. *)
Definition get_agent_card (address : string) : Res Directory.AgentCard :=
  if String.eqb address "http://0.0.0.0:10001"
  then Ret (Directory.mkCard "Travel Planner Agent" "Plans trips")
  else if String.eqb address "http://0.0.0.0:10007"
  then Ret (Directory.mkCard "Travel Budget Agent" "Estimates costs")
  else Raise (mkExn "ConnectError" "All connection attempts failed").

Definition json_dumps (v : pyval) : string := "{...}".

Definition addresses : list string :=
  ["http://0.0.0.0:10001"; "http://0.0.0.0:10007"; "https://translator"].

Definition environ : gmap string string :=
  {[ "AZURE_OPENAI_ENDPOINT" := "https://res.openai.azure.com//";
     "AZURE_OPENAI_MODEL" := "gpt-4o-mini";
     "AZURE_OPENAI_API_KEY" := "k" ]}.

End ScenarioMore.

(* ===================================================================== *)
(** ** Facts about strings and identifiers *)
(* ===================================================================== *)

Module PyFacts.

Lemma append_nil (b : string) : "" +:+ b = b.
Proof. reflexivity. Qed.

Lemma append_cons (c : ascii) (a b : string) :
  String c a +:+ b = String c (a +:+ b).
Proof. reflexivity. Qed.

Lemma append_assoc (a b c : string) : (a +:+ b) +:+ c = a +:+ b +:+ c.
Proof.
  induction a as [|x a IH]; [done|]. by rewrite !append_cons, IH.
Qed.

Lemma append_empty_r (a : string) : a +:+ "" = a.
Proof.
  induction a as [|x a IH]; [done|]. by rewrite append_cons, IH.
Qed.

Lemma lower_app (a b : string) : lower (a +:+ b) = lower a +:+ lower b.
Proof.
  induction a as [|x a IH]; [done|].
  rewrite append_cons. cbn [lower]. by rewrite append_cons, IH.
Qed.

Lemma startswith_spec (p s : string) :
  startswith p s = true <-> exists post, s = p +:+ post.
Proof.
  revert s; induction p as [|a p IH]; intros s; cbn [startswith].
  - split; [intros _; by exists s | done].
  - destruct s as [|b s].
    + split; [done | intros [post H]; discriminate].
    + rewrite andb_true_iff, IH, Ascii.eqb_eq. split.
      * intros [-> [post ->]]. by exists post.
      * intros [post H]. rewrite append_cons in H. injection H as -> ->.
        split; [done | by exists post].
Qed.

Lemma str_in_spec (needle hay : string) :
  str_in needle hay = true <-> Substring needle hay.
Proof.
  unfold Substring. induction hay as [|c hay IH].
  - cbn [str_in]. rewrite orb_false_r, startswith_spec. split.
    + intros [post H]. by exists "", post.
    + intros [pre [post H]]. destruct pre as [|x pre].
      * by exists post.
      * rewrite append_cons in H. discriminate.
  - cbn [str_in]. rewrite orb_true_iff, IH, startswith_spec. split.
    + intros [[post H] | [pre [post H]]].
      * by exists "", post.
      * exists (String c pre), post. by rewrite append_cons, H.
    + intros [pre [post H]]. destruct pre as [|x pre].
      * left. by exists post.
      * right. rewrite append_cons in H. injection H as -> H. by exists pre, post.
Qed.

Lemma Substring_lower (needle hay : string) :
  Substring needle hay -> Substring (lower needle) (lower hay).
Proof.
  intros [pre [post ->]]. exists (lower pre), (lower post).
  by rewrite !lower_app.
Qed.

Lemma length_hex_fixed (k : nat) (n : N) (acc : string) :
  String.length (hex_fixed k n acc) = (k + String.length acc)%nat.
Proof.
  revert n acc; induction k as [|k IH]; intros n acc; simpl; [done|].
  rewrite IH. simpl. lia.
Qed.

Lemma length_uuid_str (i : N) : String.length (uuid_str i) = 36%nat.
Proof.
  unfold uuid_str. repeat (rewrite length_hex_fixed; cbn [String.length]). done.
Qed.

Lemma truthy_uuid (i : N) : truthy (VStr (uuid_str i)) = true.
Proof.
  pose proof (length_uuid_str i) as H. simpl.
  destruct (uuid_str i); [discriminate | done].
Qed.

End PyFacts.
(* ===================================================================== *)
(** ** The content-part conversions and the streaming loop *)
(* ===================================================================== *)

Module ExecutorFacts.

Import Executor Spec.

(** A part that passes the filter of the final-response branch converts
    to a supported part, unless the library refuses one of its fields. *)
Lemma carried_content_converts lib (p : GenaiPart) :
  carries_content p = true ->
  match _convert_genai_part_to_a2a lib p with
  | Ret q => supported q
  | Raise e => exn_class e = "ValidationError"
  end.
Proof.
  unfold carries_content, _convert_genai_part_to_a2a.
  destruct p as [[[|c r]|] [[[u|] fm]|] [[[d|] bm]|] fc]; simpl; intros H;
    try discriminate; try exact I; try reflexivity;
    destruct (utf8decode lib d); done.
Qed.

(** A part with a non-empty text converts to the text part of that
    text. *)
Lemma text_converts lib (p : GenaiPart) (c : ascii) (r : string) :
  text p = Some (String c r) ->
  _convert_genai_part_to_a2a lib p = Ret (TextPart (String c r) None).
Proof. unfold _convert_genai_part_to_a2a. by intros ->. Qed.

(** When the session service fails, nothing has been registered and
    nothing is emitted. *)
Lemma process_request_upsert_raises lib runner new_message session_id
    (s s0 : ExecState) (e : Exn) :
  _upsert_session runner session_id s = (Raise e, s0) ->
  _process_request lib runner new_message session_id s = (Raise e, s).
Proof.
  unfold _process_request, _upsert_session, bind, lift, ret.
  destruct (get_session runner session_id) as [[sess|]|e1]; try discriminate.
  - destruct (create_session runner session_id); [discriminate|].
    by intros [= -> _].
  - by intros [= -> _].
Qed.





(** What [_process_request] amounts to once the session is resolved:
    register, consume, report a failure if it is an [Exception],
    deregister. *)
Lemma process_request_registered lib runner new_message session_id
    (s s0 : ExecState) (session_obj : Session) :
  _upsert_session runner session_id s = (Ret session_obj, s0) ->
  let sid := id session_obj in
  let stream := run_async runner sid DEFAULT_USER_ID new_message in
  _process_request lib runner new_message session_id s
  = match consume lib (yielded stream) (raised stream)
            (mkExecState ({[sid]} ∪ _active_sessions s0) (emitted s0)) with
    | (Ret _, s2) =>
        (Ret tt, mkExecState (_active_sessions s2 ∖ {[sid]}) (emitted s2))
    | (Raise e, s2) =>
        if is_Exception e
        then (Ret tt, mkExecState (_active_sessions s2 ∖ {[sid]})
                        (emitted s2 ++ [failed_update e]))
        else (Raise e, mkExecState (_active_sessions s2 ∖ {[sid]})
                         (emitted s2))
    end.
Proof.
  intros Hup sid stream. unfold _process_request. unfold bind at 1.
  rewrite Hup. cbv beta iota. fold sid stream.
  unfold bind, modify, try_finally, try_except_Exception, update_status.
  cbv beta iota.
  destruct (consume lib (yielded stream) (raised stream) _)
    as [[[]|e] s2]; [done|].
  by destruct (is_Exception e).
Qed.

(** C5, as the claim states it, fails on the exit path where the session
    service raises: the call ends with that exception before the [try]
    is entered, and a session id that was in the in-flight set, put there
    by a request of the same session still in progress, is in it
    afterwards. *)
Lemma session_failure_leaves_the_id_in_flight :
  let down := mkExn "ConnectionError" "session store unreachable" in
  let runner :=
    mkRunner (fun _ => Raise down) (fun sid => Ret (mkSession sid))
      (fun _ _ _ => Scenario.broken_stream) in
  let s := mkExecState {[ "s1" ]} [] in
  let result := _process_request Scenario.lib runner [] "s1" s in
  fst result = Raise down
  /\ "s1" ∈ _active_sessions (snd result)
  /\ emitted (snd result) = [].
Proof.
  cbv zeta. split; [reflexivity|]. split; [|reflexivity].
  change ("s1" ∈ ({[ "s1" ]} : gset string)). by apply elem_of_singleton.
Qed.

(** C5, amended: every way [_process_request] can end.  If the session
    service raises, the call raises the same and the state, the in-flight
    set included, is as before.  Once the session is resolved, the
    session id is out of the in-flight set when the call ends, however it
    ends.  When the stream is consumed to its end or stops at a final
    response, the call returns and emits nothing more.  When consuming
    the stream raises an instance of [Exception], the call returns and
    the last update emitted is the terminal [failed] status whose message
    carries the exception text.  When it raises a signal that is not an
    [Exception] (a cancellation), the call raises the same and no failed
    status is emitted. *)
Theorem process_request_fails_and_cleans_up lib runner new_message
    session_id (s : ExecState) :
  let result := _process_request lib runner new_message session_id s in
  match _upsert_session runner session_id s with
  | (Raise e, _) => result = (Raise e, s)
  | (Ret session_obj, s0) =>
      let sid := id session_obj in
      let stream := run_async runner sid DEFAULT_USER_ID new_message in
      (sid ∉ _active_sessions (snd result))
      /\ match consume lib (yielded stream) (raised stream)
                 (mkExecState ({[sid]} ∪ _active_sessions s0) (emitted s0))
         with
         | (Ret _, s2) =>
             fst result = Ret tt /\ emitted (snd result) = emitted s2
         | (Raise e, s2) =>
             if is_Exception e
             then fst result = Ret tt
                  /\ emitted (snd result)
                     = (emitted s2 ++ [failed_update e])%list
             else fst result = Raise e
                  /\ emitted (snd result) = emitted s2
         end
  end.
Proof.
  cbv zeta.
  destruct (_upsert_session runner session_id s) as [[obj|e] s0] eqn:Hup.
  - rewrite (process_request_registered _ _ _ _ _ _ _ Hup).
    destruct (consume lib _ _ _) as [[[]|e] s2];
      [|destruct (is_Exception e)]; cbn;
      (split; [|done]);
      rewrite elem_of_difference, elem_of_singleton; tauto.
  - by apply process_request_upsert_raises with (s0 := s0).
Qed.

Lemma process_request_fails_and_cleans_up_witness :
  let result :=
    _process_request Scenario.lib Scenario.runner [Part_text "Plan Tokyo"]
      "s1" Scenario.idle in
  ("s1" ∉ _active_sessions (snd result))
  /\ fst result = Ret tt
  /\ emitted (snd result)
     = [StatusUpdate working (Some [TextPart "Looking up" None]) false;
        failed_update (mkExn "RuntimeError" "model unavailable")].
Proof.
  exact (process_request_fails_and_cleans_up Scenario.lib
           Scenario.runner [Part_text "Plan Tokyo"] "s1" Scenario.idle).
Defined.

(** C9: [_convert_a2a_part_to_genai] raises a [ValueError] naming the
    type for every data part; [_convert_genai_part_to_a2a] raises a
    [ValueError] showing the part for every part that carries none of
    text, file_data and inline_data; and whatever either conversion
    returns is a supported part made from a part of a supported kind,
    never an empty one; a part of a supported kind fails to convert only
    when the library refuses one of its fields. *)
Theorem unsupported_parts_raise :
  (forall lib d m,
     _convert_a2a_part_to_genai lib (DataPart d m)
     = Raise (ValueError
                "Unsupported part type: <class 'a2a.types.DataPart'>"))
  /\ (forall lib g,
        if carries_content g then True
        else _convert_genai_part_to_a2a lib g
             = Raise (ValueError
                        ("Unsupported GenAI part: " +:+ genai_repr lib g)))
  /\ (forall lib p,
        match _convert_a2a_part_to_genai lib p with
        | Ret g =>
            supported p
            /\ (is_Some (text g) \/ is_Some (file_data g)
                \/ is_Some (inline_data g))
        | Raise e =>
            match p with
            | DataPart _ _ =>
                e = ValueError ("Unsupported part type: " +:+ type_repr p)
            | _ => exn_class e = "ValidationError"
            end
        end)
  /\ (forall lib g,
        match _convert_genai_part_to_a2a lib g with
        | Ret q => supported q /\ carries_content g = true
        | Raise e =>
            if carries_content g then exn_class e = "ValidationError"
            else e = ValueError
                       ("Unsupported GenAI part: " +:+ genai_repr lib g)
        end).
Proof.
  split; [done|]. split; [|split].
  - intros lib g; destruct g as [[[|c t]|] [fd|] [b|] fc]; cbn; done.
  - intros lib p; destruct p as [t m | [u mt n | b mt n] m | d m]; cbn;
      [split; [done | left; eauto] | split; [done | right; left; eauto]
      | | done].
    destruct (b64decode lib b); [|done]. split; [done | right; right; eauto].
  - intros lib g;
      destruct g as [[[|c t]|] [[[u|] fm]|] [[[d|] bm]|] fc]; cbn;
      try done; destruct (utf8decode lib d); done.
Qed.

End ExecutorFacts.
(* ===================================================================== *)
(** ** Delegation: [RoutingAgent.send_message] *)
(* ===================================================================== *)

Module RoutingFacts.

Import Routing Spec.

(** Unfold the monad and the heap projections, and nothing else: maps,
    strings and identifiers stay folded. *)
Ltac run :=
  cbv beta iota zeta delta
    [build_request dispatch send_message state_set state_get state_lookup
     log str_uuid4 time_time client_send_message push_trace lift bind
     try_except modify get ret raise truthy_client negb fst snd tick];
  cbn [state uuids_drawn clock_reads effects].

Ltac step :=
  cbv beta iota zeta; cbn [state uuids_drawn clock_reads effects].

Lemma sent_requests_app (l1 l2 : list Effect) :
  sent_requests (l1 ++ l2) = (sent_requests l1 ++ sent_requests l2)%list.
Proof.
  induction l1 as [|[k v|u r|u j] l1 IH]; cbn; [done | done | | done].
  by rewrite IH.
Qed.

Lemma written_keys_app (l1 l2 : list Effect) :
  written_keys (l1 ++ l2) = (written_keys l1 ++ written_keys l2)%list.
Proof.
  induction l1 as [|[k v|u r|u j] l1 IH]; cbn; [done | | done | done].
  by rewrite IH.
Qed.

Lemma send_message_unregistered self agent_name task (h : Heap) :
  remote_agent_connections self !! agent_name = None ->
  send_message self agent_name task h
  = (Raise (ValueError ("Agent " +:+ agent_name +:+ " not found")), tick h).
Proof. intros H. run. by rewrite H. Qed.

Lemma send_message_registered self agent_name task (h : Heap) client :
  remote_agent_connections self !! agent_name = Some client ->
  send_message self agent_name task h
  = match build_request self agent_name task client (tick h) with
    | (Ret message_request, h2) =>
        dispatch self agent_name client (clock self (clock_reads h))
          message_request h2
    | (Raise e, h2) => (Raise e, h2)
    end.
Proof. intros H. run. by rewrite H. Qed.

(** What [build_request] leaves behind: the one write, nothing else. *)
Lemma build_request_heap self agent_name task client (h : Heap) :
  let h' := snd (build_request self agent_name task client h) in
  state h' = <["active_agent" := VStr agent_name]> (state h)
  /\ effects h' = (effects h ++ [SetState "active_agent" (VStr agent_name)])%list
  /\ clock_reads h' = clock_reads h.
Proof.
  run.
  repeat case_match; simplify_eq; cbn; done.
Qed.


(** The request that validation lets through carries the message id as
    given, and a task or context id exactly when the value was a
    non-empty string. *)
Lemma model_validate_built task (message_id task_id context_id : pyval)
    (m : Message) :
  model_validate (build_params_data task message_id task_id context_id)
  = Ret m ->
  exists mid,
    message_id = VStr mid
    /\ m = mkMessage "user" [task] mid (context_field task_id)
             (context_field context_id).
Proof.
  unfold build_params_data, model_validate.
  destruct message_id as [| | | |mid| |];
    destruct task_id as [|[]|[]|[]|[|? ?]|[|? ?]|[|? ?]];
    destruct context_id as [|[]|[]|[]|[|? ?]|[|? ?]|[|? ?]];
    cbn; intros H; try discriminate H; simplify_eq; by eexists.
Qed.

(** A truthy [task_id] stops the call at line 236. *)
Lemma build_request_task_id self agent_name task client (h : Heap) :
  truthy (default VNone (state h !! "task_id")) = true ->
  fst (build_request self agent_name task client h)
  = Raise (UnboundLocalError "params_data").
Proof.
  intros Ht. run.
  rewrite lookup_insert_ne by done. rewrite Ht.
  rewrite lookup_insert_eq. cbn. by rewrite String.eqb_refl.
Qed.

(** The context id of a request that was built, when the state holds
    one. *)
Lemma build_request_context_id self agent_name task client (h h' : Heap)
    (message_request : SendMessageRequest) (v : pyval) :
  build_request self agent_name task client h = (Ret message_request, h') ->
  state h !! "context_id" = Some v ->
  contextId (params message_request) = context_field v.
Proof.
  intros Hb Hc. revert Hb. run.
  destruct (truthy _ && str_eq _ _); [intros [=]|]. step.
  rewrite !lookup_insert_ne by done. rewrite Hc. step.
  rewrite !lookup_insert_ne by done.
  repeat (case_match; step); intros Hb; simplify_eq;
    match goal with
    | H : model_validate _ = Ret _ |- _ =>
        apply model_validate_built in H as [mid [_ ->]]
    end; done.
Qed.

Lemma context_field_uuid (i : N) :
  context_field (VStr (uuid_str i)) = Some (uuid_str i).
Proof.
  pose proof (PyFacts.length_uuid_str i) as H.
  by destruct (uuid_str i); [discriminate|].
Qed.

(** The context id of a request that was built, when the state holds
    none: the uuid drawn first, which is not written back. *)
Lemma build_request_fresh_context_id self agent_name task client
    (h h' : Heap) (message_request : SendMessageRequest) :
  build_request self agent_name task client h = (Ret message_request, h') ->
  state h !! "context_id" = None ->
  contextId (params message_request) = Some (nth_uuid self (uuids_drawn h))
  /\ uuids_drawn h < uuids_drawn h'.
Proof.
  intros Hb Hc. revert Hb. run.
  destruct (truthy _ && str_eq _ _); [intros [=]|]. step.
  rewrite !lookup_insert_ne by done. rewrite Hc. step.
  rewrite !lookup_insert_ne by done.
  repeat (case_match; step); intros Hb; simplify_eq;
    match goal with
    | H : model_validate _ = Ret _ |- _ =>
        apply model_validate_built in H as [mid [_ ->]]
    end; cbn [params contextId uuids_drawn];
    (split; [apply context_field_uuid | lia]).
Qed.

(** The call proper. *)
Lemma dispatch_raise self agent_name client start_time message_request
    (h : Heap) (e : Exn) :
  agent_client_send self client message_request = Raise e ->
  dispatch self agent_name client start_time message_request h
  = (Ret (on_send_exception agent_name e),
     mkHeap (state h) (uuids_drawn h) (clock_reads h)
       (effects h ++ [Send (agent_url client) message_request])).
Proof. intros H. run. by rewrite H. Qed.

Lemma dispatch_answer self agent_name client start_time message_request
    (h : Heap) (r : SendMessageResponse) :
  agent_client_send self client message_request = Ret r ->
  fst (dispatch self agent_name client start_time message_request h)
  = Ret (response_outcome self agent_name
           (clock self (clock_reads h) - start_time) r).
Proof.
  intros H. run. rewrite H.
  destruct (requests_post self _ _); by destruct r as [c m|[t|m]].
Qed.

(** [dispatch] draws no uuid. *)
Lemma dispatch_uuids self agent_name client start_time message_request
    (h : Heap) :
  uuids_drawn (snd (dispatch self agent_name client start_time
                      message_request h))
  = uuids_drawn h.
Proof.
  run.
  destruct (agent_client_send self client message_request) as [r|e]; cbn;
    [|done].
  destruct (requests_post self _ _); by destruct r as [c m|[t|m]].
Qed.

(** [dispatch] leaves the session state alone; it sends the request first
    and writes nothing. *)
Lemma dispatch_heap self agent_name client start_time message_request
    (h : Heap) :
  let h' := snd (dispatch self agent_name client start_time message_request h) in
  state h' = state h
  /\ exists rest,
       effects h'
       = (effects h ++ Send (agent_url client) message_request :: rest)%list
       /\ written_keys rest = [] /\ sent_requests rest = [].
Proof.
  run.
  destruct (agent_client_send self client message_request) as [r|e]; cbn.
  - destruct (requests_post self _ _); destruct r as [c m|[t|m]]; cbn;
      (split; [done|]); eexists; rewrite <- app_assoc; cbn; done.
  - split; [done|]. by exists [].
Qed.


(** A registered call: the one write comes first, nothing else is written,
    and a request goes out exactly when [build_request] returns one. *)
Lemma send_message_heap self agent_name task (h : Heap) client :
  remote_agent_connections self !! agent_name = Some client ->
  let h' := snd (send_message self agent_name task h) in
  state h' = <["active_agent" := VStr agent_name]> (state h)
  /\ exists rest,
       effects h'
       = (effects h ++ SetState "active_agent" (VStr agent_name) :: rest)%list
       /\ written_keys rest = []
       /\ match build_request self agent_name task client (tick h) with
          | (Ret message_request, _) => sent_requests rest = [message_request]
          | (Raise _, _) => rest = []
          end.
Proof.
  intros Hc. cbv zeta. rewrite (send_message_registered _ _ _ _ _ Hc).
  pose proof (build_request_heap self agent_name task client (tick h))
    as (Hs & He & _).
  destruct (build_request self agent_name task client (tick h))
    as [[r|e] h2]; cbn [snd] in Hs, He.
  - pose proof (dispatch_heap self agent_name client
                  (clock self (clock_reads h)) r h2)
      as (Hs' & rest & He' & Hw & Hr).
    cbv zeta in Hs', He'. rewrite Hs', Hs. split; [done|].
    exists (Send (agent_url client) r :: rest).
    rewrite He', He, <- app_assoc. cbn. by rewrite Hw, Hr.
  - cbn [snd]. rewrite Hs. split; [done|]. exists []. by rewrite He.
Qed.

(** One call, registered or not: what it sends and what it leaves in the
    session state. *)
Lemma send_message_frame self agent_name task (h : Heap) :
  let h' := snd (send_message self agent_name task h) in
  (forall k, k ≠ "active_agent" -> state h' !! k = state h !! k)
  /\ exists new,
       effects h' = (effects h ++ new)%list
       /\ Forall (fun k => k = "active_agent") (written_keys new)
       /\ forall v, state h !! "context_id" = Some v ->
            Forall (fun r => contextId (params r) = context_field v)
              (sent_requests new).
Proof.
  cbv zeta.
  destruct (remote_agent_connections self !! agent_name) as [client|] eqn:Hc.
  - pose proof (send_message_heap self agent_name task h client Hc)
      as (Hs & rest & He & Hw & Hr). cbv zeta in Hs, He.
    split; [intros k Hk; by rewrite Hs, lookup_insert_ne|].
    exists (SetState "active_agent" (VStr agent_name) :: rest).
    split; [done|]. cbn. rewrite Hw. split; [by constructor|].
    intros v Hv.
    destruct (build_request self agent_name task client (tick h))
      as [[r|e] h2] eqn:Hb.
    + rewrite Hr. constructor; [|done].
      by apply (build_request_context_id _ _ _ _ _ _ _ _ Hb).
    + by rewrite Hr.
  - rewrite (send_message_unregistered _ _ _ _ Hc). cbn.
    split; [done|]. exists []. by rewrite app_nil_r.
Qed.

(** The request of a call that sent one is the request that was built. *)
Lemma send_message_sent self agent_name task (h : Heap) client
    (message_request : SendMessageRequest) :
  remote_agent_connections self !! agent_name = Some client ->
  sent_requests (effects (snd (send_message self agent_name task h)))
  = (sent_requests (effects h) ++ [message_request])%list ->
  exists h2,
    build_request self agent_name task client (tick h)
    = (Ret message_request, h2)
    /\ clock_reads h2 = S (clock_reads h)
    /\ send_message self agent_name task h
       = dispatch self agent_name client (clock self (clock_reads h))
           message_request h2.
Proof.
  intros Hc Hsent.
  pose proof (send_message_heap self agent_name task h client Hc)
    as (_ & rest & He & _ & Hr). cbv zeta in He.
  rewrite He, sent_requests_app in Hsent. cbn in Hsent.
  apply app_inv_head in Hsent.
  pose proof (build_request_heap self agent_name task client (tick h))
    as (_ & _ & Hk).
  rewrite (send_message_registered _ _ _ _ _ Hc).
  destruct (build_request self agent_name task client (tick h))
    as [[r|e] h2]; cbn [snd] in Hk.
  - rewrite Hr in Hsent. injection Hsent as ->. by exists h2.
  - by rewrite Hr in Hsent.
Qed.

Lemma timed_out_message agent_name :
  Substring "timed out"
    ("Request to " +:+ agent_name
     +:+ " timed out. Please ensure the agent is running and try again.").
Proof.
  exists ("Request to " +:+ agent_name +:+ " "),
    ". Please ensure the agent is running and try again.".
  by rewrite !PyFacts.append_assoc.
Qed.

Lemma failure_message agent_name error_msg :
  Substring error_msg
    ("Failed to communicate with " +:+ agent_name +:+ ": " +:+ error_msg).
Proof.
  exists ("Failed to communicate with " +:+ agent_name +:+ ": "), "".
  by rewrite !PyFacts.append_assoc, PyFacts.append_empty_r.
Qed.

Lemma timeout_text_of_substring error_msg :
  Substring "timeout" error_msg \/ Substring "timed out" error_msg ->
  timeout_text error_msg = true.
Proof.
  unfold timeout_text. rewrite orb_true_iff, !PyFacts.str_in_spec.
  intros [H|H]; [left|right]; by apply PyFacts.Substring_lower in H.
Qed.

(** C1, as the claim states it, fails: for an unregistered name the call
    returns no outcome at all, it raises. *)
Lemma unknown_agent_returns_no_outcome :
  remote_agent_connections Scenario.answers_t1 !! "UnknownAgent" = None
  /\ fst (send_message Scenario.answers_t1 "UnknownAgent" "Plan a trip"
            (Scenario.fresh ∅))
     = Raise (ValueError "Agent UnknownAgent not found")
  /\ forall outcome,
       fst (send_message Scenario.answers_t1 "UnknownAgent" "Plan a trip"
              (Scenario.fresh ∅))
       ≠ Ret outcome.
Proof.
  split; [reflexivity|]. split; [reflexivity|]. intros outcome H.
  discriminate H.
Qed.

(** C1, amended: for every session state and every agent name that is not
    in the directory, [send_message] raises [ValueError] with the text
    "Agent <name> not found"; the session state is untouched and no effect
    is performed, so no request goes to any remote agent. *)
Theorem unknown_agent_raises self agent_name task (h : Heap) :
  remote_agent_connections self !! agent_name = None ->
  let result := send_message self agent_name task h in
  fst result = Raise (ValueError ("Agent " +:+ agent_name +:+ " not found"))
  /\ state (snd result) = state h
  /\ effects (snd result) = effects h
  /\ sent_requests (effects (snd result)) = sent_requests (effects h).
Proof.
  intros Hc. cbv zeta. by rewrite (send_message_unregistered _ _ _ _ Hc).
Qed.

Lemma unknown_agent_raises_witness :
  let result :=
    send_message Scenario.answers_t1 "UnknownAgent" "Plan a trip"
      (Scenario.fresh ∅) in
  fst result = Raise (ValueError "Agent UnknownAgent not found")
  /\ state (snd result) = ∅
  /\ effects (snd result) = []
  /\ sent_requests (effects (snd result)) = [].
Proof.
  exact (unknown_agent_raises Scenario.answers_t1 "UnknownAgent"
           "Plan a trip" (Scenario.fresh ∅) eq_refl).
Defined.

(** C2 does not hold of the code: whenever the session state carries a
    truthy [task_id] and the agent is registered, [send_message] raises
    [UnboundLocalError] at line 236, where [params_data] is read before
    line 252 binds it; no request has been sent by then. *)
Theorem established_task_id_raises self agent_name task (h : Heap) client
    (task_id : pyval) :
  remote_agent_connections self !! agent_name = Some client ->
  state h !! "task_id" = Some task_id ->
  truthy task_id = true ->
  let result := send_message self agent_name task h in
  fst result = Raise (UnboundLocalError "params_data")
  /\ sent_requests (effects (snd result)) = sent_requests (effects h).
Proof.
  intros Hc Ht Htruthy. cbv zeta.
  pose proof (send_message_heap self agent_name task h client Hc)
    as (_ & rest & He & _ & Hr). cbv zeta in He.
  rewrite He, sent_requests_app.
  rewrite (send_message_registered _ _ _ _ _ Hc) in *.
  pose proof (build_request_task_id self agent_name task client (tick h))
    as Hraise.
  cbn [tick state] in Hraise. rewrite Ht in Hraise.
  specialize (Hraise Htruthy).
  destruct (build_request self agent_name task client (tick h))
    as [[r|e] h2]; cbn [fst] in Hraise; [discriminate|].
  injection Hraise as ->. subst rest. cbn. by rewrite app_nil_r.
Qed.

Lemma established_task_id_raises_witness :
  let h :=
    Scenario.fresh {[ "task_id" := VStr "t1";
                      "active_agent" := VStr "BudgetAgent" ]} in
  let result :=
    send_message Scenario.answers_t1 "BudgetAgent" "And for seven days?" h in
  fst result = Raise (UnboundLocalError "params_data")
  /\ sent_requests (effects (snd result)) = [].
Proof.
  exact (established_task_id_raises Scenario.answers_t1 "BudgetAgent"
           "And for seven days?"
           (Scenario.fresh {[ "task_id" := VStr "t1";
                              "active_agent" := VStr "BudgetAgent" ]})
           Scenario.budget (VStr "t1") eq_refl eq_refl eq_refl).
Defined.

(** C3, as the claim states it, fails: on a session state without a
    [context_id], two successive calls each generate their own, the first
    is not kept in the state, and the two requests carry different
    context ids. *)
Lemma context_id_generated_per_call :
  let h1 :=
    snd (send_message Scenario.answers_t1 "BudgetAgent"
           "Estimate a 5-day Tokyo trip for $1500" (Scenario.fresh ∅)) in
  let h2 :=
    snd (send_message Scenario.answers_t1 "BudgetAgent"
           "And for seven days?" h1) in
  state h1 !! "context_id" = None
  /\ List.map (fun r => contextId (params r)) (sent_requests (effects h2))
     = [Some "00000000-0000-4000-8000-000000000000";
        Some "00000000-0000-4000-8000-000000000002"].
Proof. vm_compute. split; reflexivity. Qed.

(** One call on a state without a [context_id]: the request it sends,
    if any, carries the uuid the call drew first. *)
Lemma send_message_fresh self agent_name task (h : Heap) :
  state h !! "context_id" = None ->
  let h' := snd (send_message self agent_name task h) in
  exists new,
    sent_requests (effects h') = (sent_requests (effects h) ++ new)%list
    /\ Forall (fun r => contextId (params r)
                        = Some (nth_uuid self (uuids_drawn h))) new
    /\ match new with
       | [] => True
       | _ => uuids_drawn h < uuids_drawn h'
       end.
Proof.
  intros Hv. cbv zeta.
  destruct (remote_agent_connections self !! agent_name) as [client|] eqn:Hc.
  - pose proof (send_message_heap self agent_name task h client Hc)
      as (_ & rest & He & _ & Hr). cbv zeta in He.
    rewrite He, sent_requests_app. cbn [sent_requests].
    rewrite (send_message_registered _ _ _ _ _ Hc).
    destruct (build_request self agent_name task client (tick h))
      as [[r|e] h2] eqn:Hb.
    + destruct (build_request_fresh_context_id _ _ _ _ _ _ _ Hb Hv)
        as [Hid Hlt].
      exists [r]. rewrite Hr. split; [done|]. split; [by constructor|].
      rewrite dispatch_uuids. exact Hlt.
    + exists []. by rewrite Hr.
  - rewrite (send_message_unregistered _ _ _ _ Hc). cbn.
    exists []. by rewrite app_nil_r.
Qed.

(** C3, amended: [send_message] never stores a context id: after one call
    and after two, the session state has the [context_id] entry it had
    before, or none if it had none.  If the state holds one, every
    request the two calls send carries it as [contextId] when it is a
    non-empty string, and carries no [contextId] otherwise.  If the state
    holds none, every call generates a uuid of its own: the request of
    the first call carries the uuid that call drew first, the request of
    the second call carries the uuid the second call drew first, and that
    draw is a later one whenever the first call sent a request. *)
Theorem context_id_held_else_generated self1 self2 agent1 task1 agent2 task2
    (h : Heap) :
  let h1 := snd (send_message self1 agent1 task1 h) in
  let h2 := snd (send_message self2 agent2 task2 h1) in
  state h1 !! "context_id" = state h !! "context_id"
  /\ state h2 !! "context_id" = state h !! "context_id"
  /\ exists new1 new2,
       sent_requests (effects h1) = (sent_requests (effects h) ++ new1)%list
       /\ sent_requests (effects h2)
          = (sent_requests (effects h1) ++ new2)%list
       /\ match state h !! "context_id" with
          | Some v =>
              Forall (fun r => contextId (params r) = context_field v)
                (new1 ++ new2)
          | None =>
              Forall (fun r => contextId (params r)
                               = Some (nth_uuid self1 (uuids_drawn h))) new1
              /\ Forall (fun r => contextId (params r)
                                  = Some (nth_uuid self2 (uuids_drawn h1)))
                   new2
              /\ match new1 with
                 | [] => True
                 | _ => uuids_drawn h < uuids_drawn h1
                 end
          end.
Proof.
  intros h1 h2.
  pose proof (send_message_frame self1 agent1 task1 h)
    as (Hk1 & new1 & He1 & _ & Hc1).
  pose proof (send_message_frame self2 agent2 task2 h1)
    as (Hk2 & new2 & He2 & _ & Hc2).
  cbv zeta in Hk1, He1, Hk2, He2. fold h1 in Hk1, He1. fold h2 in Hk2, He2.
  assert (state h1 !! "context_id" = state h !! "context_id") as Hv1
    by (by apply Hk1).
  split; [done|]. split; [by rewrite Hk2|].
  destruct (state h !! "context_id") as [v|] eqn:Hv.
  - exists (sent_requests new1), (sent_requests new2).
    rewrite He2, He1, !sent_requests_app. split; [done|]. split; [done|].
    apply Forall_app. split; [by apply Hc1 | by apply Hc2].
  - destruct (send_message_fresh self1 agent1 task1 h Hv)
      as (n1 & Hn1 & Hf1 & Hd1).
    destruct (send_message_fresh self2 agent2 task2 h1 Hv1)
      as (n2 & Hn2 & Hf2 & _).
    exists n1, n2. done.
Qed.

Lemma context_id_held_else_generated_witness :
  let h := Scenario.fresh {[ "context_id" := VStr "ctx-7" ]} in
  let h1 :=
    snd (send_message Scenario.answers_t1 "BudgetAgent"
           "Estimate a 5-day Tokyo trip for $1500" h) in
  let h2 :=
    snd (send_message Scenario.answers_t1 "TravelAgent"
           "Plan the five days" h1) in
  state h1 !! "context_id" = Some (VStr "ctx-7")
  /\ state h2 !! "context_id" = Some (VStr "ctx-7")
  /\ exists new1 new2,
       sent_requests (effects h1) = ([] ++ new1)%list
       /\ sent_requests (effects h2)
          = (sent_requests (effects h1) ++ new2)%list
       /\ Forall (fun r => contextId (params r) = Some "ctx-7")
            (new1 ++ new2).
Proof.
  exact (context_id_held_else_generated Scenario.answers_t1
           Scenario.answers_t1
           "BudgetAgent" "Estimate a 5-day Tokyo trip for $1500"
           "TravelAgent" "Plan the five days"
           (Scenario.fresh {[ "context_id" := VStr "ctx-7" ]})).
Defined.

(** C6: for every delegation to a registered agent, however the call ends
    (an outcome for a remote success or failure, or an exception), the
    session state afterwards has [active_agent] equal to the attempted
    name; the write is the first effect of the call, so it precedes the
    request, and nothing is written after it. *)
Theorem active_agent_is_attempted self agent_name task (h : Heap) client :
  remote_agent_connections self !! agent_name = Some client ->
  let result := send_message self agent_name task h in
  state (snd result) !! "active_agent" = Some (VStr agent_name)
  /\ exists rest,
       effects (snd result)
       = (effects h ++ SetState "active_agent" (VStr agent_name) :: rest)%list
       /\ written_keys rest = []
       /\ sent_requests (effects (snd result))
          = (sent_requests (effects h) ++ sent_requests rest)%list.
Proof.
  intros Hc.
  pose proof (send_message_heap self agent_name task h client Hc)
    as (Hs & rest & He & Hw & _). cbv zeta in *.
  rewrite Hs, lookup_insert_eq. split; [done|].
  exists rest. rewrite He, sent_requests_app. done.
Qed.

Lemma active_agent_is_attempted_witness :
  let result :=
    send_message
      (Scenario.world (Raise (mkExn "ConnectError" "All connection attempts failed")))
      "TravelAgent" "Plan the five days"
      (Scenario.fresh {[ "active_agent" := VStr "BudgetAgent" ]}) in
  state (snd result) !! "active_agent" = Some (VStr "TravelAgent")
  /\ exists rest,
       effects (snd result)
       = ([] ++ SetState "active_agent" (VStr "TravelAgent") :: rest)%list
       /\ written_keys rest = []
       /\ sent_requests (effects (snd result))
          = ([] ++ sent_requests rest)%list.
Proof.
  exact (active_agent_is_attempted
           (Scenario.world
              (Raise (mkExn "ConnectError" "All connection attempts failed")))
           "TravelAgent" "Plan the five days"
           (Scenario.fresh {[ "active_agent" := VStr "BudgetAgent" ]})
           Scenario.travel eq_refl).
Defined.

(** C7: when the call has sent its request and the remote connection
    answers it, the outcome is fixed by the answer: an error response gives
    the "non-success" error outcome, a success that is not a task gives the
    "non-task" error outcome, and a task gives the success outcome with the
    agent name, the elapsed time (the clock reading taken after the
    answer minus the one taken on entry) and, as the task payload, what
    the library's [model_dump] returns for the task when called with
    [exclude_none=True]. *)
Theorem response_classified self agent_name task (h : Heap) client
    (message_request : SendMessageRequest) (response : SendMessageResponse) :
  remote_agent_connections self !! agent_name = Some client ->
  sent_requests (effects (snd (send_message self agent_name task h)))
  = (sent_requests (effects h) ++ [message_request])%list ->
  agent_client_send self client message_request = Ret response ->
  let outcome := fst (send_message self agent_name task h) in
  match response with
  | JSONRPCErrorResponse _ _ =>
      outcome
      = Ret (VDict [("status", VStr "error");
                    ("message",
                     VStr (agent_name +:+ " returned a non-success response"));
                    ("agent_name", VStr agent_name)])
  | SendMessageSuccessResponse (ResultMessage _) =>
      outcome
      = Ret (VDict [("status", VStr "error");
                    ("message",
                     VStr (agent_name +:+ " returned a non-task response"));
                    ("agent_name", VStr agent_name)])
  | SendMessageSuccessResponse (ResultTask t) =>
      outcome
      = Ret (VDict [("status", VStr "success");
                    ("agent_name", VStr agent_name);
                    ("elapsed_seconds",
                     VNum (clock self (S (clock_reads h))
                           - clock self (clock_reads h)));
                    ("task", model_dump self true t)])
  end.
Proof.
  intros Hc Hsent Hanswer.
  destruct (send_message_sent _ _ _ _ _ _ Hc Hsent) as (h2 & _ & Hk & ->).
  cbv zeta. rewrite (dispatch_answer _ _ _ _ _ _ _ Hanswer), Hk.
  by destruct response as [c m|[t|m]].
Qed.

Lemma response_classified_witness :
  fst (send_message Scenario.answers_t1 "BudgetAgent"
         "Estimate a 5-day Tokyo trip for $1500" (Scenario.fresh ∅))
  = Ret (VDict [("status", VStr "success");
                ("agent_name", VStr "BudgetAgent");
                ("elapsed_seconds", VNum 150);
                ("task", VDict [("id", VStr "t1");
                                ("status", VStr "completed")])]).
Proof.
  exact (response_classified Scenario.answers_t1 "BudgetAgent"
           "Estimate a 5-day Tokyo trip for $1500" (Scenario.fresh ∅)
           Scenario.budget
           (mkRequest "00000000-0000-4000-8000-000000000001"
              (mkMessage "user" ["Estimate a 5-day Tokyo trip for $1500"]
                 "00000000-0000-4000-8000-000000000001" None
                 (Some "00000000-0000-4000-8000-000000000000")))
           (SendMessageSuccessResponse (ResultTask Scenario.task_t1))
           eq_refl eq_refl eq_refl).
Defined.

(** C8, as the claim states it, fails: the text "HTTP Error 504: Gateway
    Timeout" contains neither "timeout" nor "timed out", yet the outcome
    is the timed-out one, whose message does not contain the text. *)
Lemma capitalised_timeout_is_a_timeout :
  let e := mkExn "A2AClientHTTPError" "HTTP Error 504: Gateway Timeout" in
  str_in "timeout" (exn_text e) = false
  /\ str_in "timed out" (exn_text e) = false
  /\ exists message,
       fst (send_message (Scenario.world (Raise e)) "BudgetAgent"
              "Estimate a 5-day Tokyo trip for $1500" (Scenario.fresh ∅))
       = Ret (error_outcome message "BudgetAgent")
       /\ str_in (exn_text e) message = false.
Proof.
  cbv zeta. split; [reflexivity|]. split; [reflexivity|].
  eexists. split; [vm_compute; reflexivity | vm_compute; reflexivity].
Qed.

(** C8, amended: when the remote send raises, the call returns the error
    outcome with the agent name and never raises.  If the lower-cased
    exception text contains "timeout" or "timed out" (in particular if the
    text itself does), the message contains "timed out"; otherwise the
    message contains the exception text. *)
Theorem send_exception_recovered self agent_name task (h : Heap) client
    (message_request : SendMessageRequest) (e : Exn) :
  remote_agent_connections self !! agent_name = Some client ->
  sent_requests (effects (snd (send_message self agent_name task h)))
  = (sent_requests (effects h) ++ [message_request])%list ->
  agent_client_send self client message_request = Raise e ->
  exists message,
    fst (send_message self agent_name task h)
    = Ret (VDict [("status", VStr "error");
                  ("message", VStr message);
                  ("agent_name", VStr agent_name)])
    /\ (if timeout_text (exn_text e)
        then Substring "timed out" message
        else Substring (exn_text e) message)
    /\ (Substring "timeout" (exn_text e)
        \/ Substring "timed out" (exn_text e) ->
        Substring "timed out" message).
Proof.
  intros Hc Hsent Hraise.
  destruct (send_message_sent _ _ _ _ _ _ Hc Hsent) as (h2 & _ & _ & ->).
  rewrite (dispatch_raise _ _ _ _ _ _ _ Hraise). cbn [fst].
  unfold on_send_exception. fold (timeout_text (exn_text e)).
  pose proof (timeout_text_of_substring (exn_text e)) as Hsub.
  destruct (timeout_text (exn_text e)).
  - eexists. split; [reflexivity|].
    split; [apply timed_out_message | intros _; apply timed_out_message].
  - eexists. split; [reflexivity|]. split; [apply failure_message|].
    intros H. by apply Hsub in H.
Qed.

Lemma send_exception_recovered_witness :
  exists message,
    fst (send_message
           (Scenario.world (Raise (mkExn "ReadTimeout" "The read operation timed out")))
           "BudgetAgent" "Estimate a 5-day Tokyo trip for $1500"
           (Scenario.fresh ∅))
    = Ret (VDict [("status", VStr "error");
                  ("message", VStr message);
                  ("agent_name", VStr "BudgetAgent")])
    /\ Substring "timed out" message.
Proof.
  assert (sent_requests
            (effects
               (snd (send_message
                       (Scenario.world
                          (Raise (mkExn "ReadTimeout"
                                    "The read operation timed out")))
                       "BudgetAgent" "Estimate a 5-day Tokyo trip for $1500"
                       (Scenario.fresh ∅))))
          = (sent_requests (effects (Scenario.fresh ∅))
             ++ [mkRequest "00000000-0000-4000-8000-000000000001"
                   (mkMessage "user"
                      ["Estimate a 5-day Tokyo trip for $1500"]
                      "00000000-0000-4000-8000-000000000001" None
                      (Some "00000000-0000-4000-8000-000000000000"))])%list)
    as Hsent by (vm_compute; reflexivity).
  destruct (send_exception_recovered
              (Scenario.world
                 (Raise (mkExn "ReadTimeout" "The read operation timed out")))
              "BudgetAgent" "Estimate a 5-day Tokyo trip for $1500"
              (Scenario.fresh ∅) Scenario.budget _
              (mkExn "ReadTimeout" "The read operation timed out")
              eq_refl Hsent eq_refl) as (message & Hout & Hmsg & _).
  exists message. split; [exact Hout | exact Hmsg].
Defined.

(** C10: the only key of the session state that [send_message] writes is
    [active_agent]: every other entry is as before the call.  In
    particular a call that found no [context_id] leaves none behind, and
    [input_message_metadata], where a message id would be held, is
    unchanged. *)
Theorem only_active_agent_written self agent_name task (h : Heap) :
  let h' := snd (send_message self agent_name task h) in
  (forall k, k ≠ "active_agent" -> state h' !! k = state h !! k)
  /\ (state h !! "context_id" = None -> state h' !! "context_id" = None)
  /\ state h' !! "input_message_metadata"
     = state h !! "input_message_metadata"
  /\ exists new,
       effects h' = (effects h ++ new)%list
       /\ Forall (fun k => k = "active_agent") (written_keys new).
Proof.
  pose proof (send_message_frame self agent_name task h)
    as (Hk & new & He & Hw & _). cbv zeta in *.
  split; [done|]. split; [intros H; by rewrite Hk|].
  split; [by rewrite Hk|]. by exists new.
Qed.

End RoutingFacts.

(* ===================================================================== *)
(** ** More of the executor: the loop's updates, [execute], [cancel] *)
(* ===================================================================== *)

Module ExecutorMore.

Import Executor ExecutorEntry Spec SpecMore.

Ltac exec :=
  cbv beta iota zeta delta
    [handle_event update_status lift bind ret raise modify get
     try_except_Exception try_finally execute cancel message_parts
     _upsert_session];
  cbn [_active_sessions emitted].

(** An artifact made of parts is emitted. *)
Lemma add_artifact_parts lib (qs : list A2APart) (s : ExecState) :
  add_artifact lib (List.map ArgPart qs) s
  = (Ret tt,
     mkExecState (_active_sessions s)
       (emitted s ++ [ArtifactUpdate (List.map ArgPart qs)])).
Proof.
  unfold add_artifact.
  replace (forallb is_part (List.map ArgPart qs)) with true; [done|].
  symmetry. apply forallb_forall. by intros x [q [<- _]]%in_map_iff.
Qed.

(** The artifact of the fallback branch is refused, and nothing is
    emitted for it. *)
Lemma add_artifact_stream lib (s : ExecState) :
  add_artifact lib [ArgArtifact "stream" "."] s
  = (Raise (ValidationError lib "Artifact.parts"), s).
Proof. reflexivity. Qed.

(** What a comprehension returns has one element per element. *)
Lemma comprehension_length {A B} (f : A -> Res B) (l : list A)
    (out : list B) :
  comprehension f l = Ret out -> length out = length l.
Proof.
  revert out; induction l as [|x l IH]; intros out; cbn [comprehension].
  - by intros [= <-].
  - destruct (f x) as [y|e]; [|done].
    destruct (comprehension f l) as [ys|e]; [|done].
    intros [= <-]. cbn. by rewrite (IH ys).
Qed.

(** The filter of the final-response branch leaves only parts that
    convert to supported parts, if the library accepts their fields. *)
Lemma filtered_parts_convert lib (ps : list GenaiPart) (qs : list A2APart) :
  comprehension (_convert_genai_part_to_a2a lib)
    (List.filter carries_content ps) = Ret qs ->
  Forall supported qs.
Proof.
  revert qs; induction ps as [|p ps IH]; intros qs.
  - by intros [= <-].
  - cbn [List.filter]. destruct (carries_content p) eqn:Hp; [|apply IH].
    cbn [comprehension].
    pose proof (ExecutorFacts.carried_content_converts lib p Hp) as Hq.
    destruct (_convert_genai_part_to_a2a lib p) as [q|e]; [|done].
    destruct (comprehension _ _) as [qs'|e]; [|done].
    intros [= <-]. constructor; [done | by apply IH].
Qed.

(** [_upsert_session] does not touch the executor's state. *)
Lemma upsert_state runner session_id (s : ExecState) :
  snd (_upsert_session runner session_id s) = s.
Proof.
  exec. by destruct (get_session runner session_id) as [[sess|]|e].
Qed.

Ltac emit body tail :=
  split; [reflexivity|]; exists body, tail;
  split; [by rewrite ?app_nil_r, <- ?app_assoc|];
  split; [repeat constructor | reflexivity].

(** One event: the in-flight set is untouched, and what is emitted is
    either not terminal, or ends with the one [completed] update and a
    [break]. *)
Lemma handle_event_emits lib (ev : Event) (s : ExecState) :
  let '(r, s') := handle_event lib ev s in
  _active_sessions s' = _active_sessions s
  /\ exists body tail,
       emitted s' = (emitted s ++ body ++ tail)%list
       /\ Forall (fun u => is_terminal u = false) body
       /\ match r with
          | Ret true => tail = [StatusUpdate completed None true]
          | _ => tail = []
          end.
Proof.
  exec. destruct (is_final_response ev).
  - destruct (content_parts ev) as [ps|e]; [|emit (@nil Update) (@nil Update)].
    destruct (comprehension _ _) as [[|q qs]|e]; exec.
    + emit (@nil Update) [StatusUpdate completed None true].
    + rewrite (add_artifact_parts lib (q :: qs)). exec.
      emit [ArtifactUpdate (List.map ArgPart (q :: qs))]
        [StatusUpdate completed None true].
    + emit (@nil Update) (@nil Update).
  - destruct (get_function_calls ev) as [|fc fcs]; exec.
    + destruct (content_parts ev) as [ps|e]; exec;
        [|emit (@nil Update) (@nil Update)].
      destruct (text_fragments ps) as [|t ts]; exec.
      * rewrite add_artifact_stream. emit (@nil Update) (@nil Update).
      * emit [StatusUpdate working
                (Some [TextPart (join (t :: ts)) None]) false] (@nil Update).
    + emit [StatusUpdate working None false] (@nil Update).
Qed.

(** The whole loop: the in-flight set is untouched; everything emitted
    is non-terminal except that a loop left by [break] has emitted the
    [completed] update last. *)
Lemma consume_emits lib (evs : list Event) (raised : option Exn)
    (s : ExecState) :
  let '(r, s') := consume lib evs raised s in
  _active_sessions s' = _active_sessions s
  /\ exists body tail,
       emitted s' = (emitted s ++ body ++ tail)%list
       /\ Forall (fun u => is_terminal u = false) body
       /\ (tail = [] \/ r = Ret tt /\ tail = [StatusUpdate completed None true]).
Proof.
  revert s. induction evs as [|ev rest IH]; intros s.
  - cbn [consume]. destruct raised as [e|]; cbn;
      (split; [done|]); exists [], []; rewrite app_nil_r; auto.
  - cbn [consume]. unfold bind at 1.
    pose proof (handle_event_emits lib ev s) as H.
    destruct (handle_event lib ev s) as [[[|]|e] s1].
    + destruct H as (Ha & body & tail & He & Hb & ->).
      split; [done|]. exists body, [StatusUpdate completed None true]. auto.
    + destruct H as (Ha & body & tail & He & Hb & ->).
      specialize (IH s1).
      destruct (consume lib rest raised s1) as [r s2].
      destruct IH as (Ha' & body' & tail' & He' & Hb' & Ht').
      split; [congruence|]. exists (body ++ body')%list, tail'.
      rewrite He', He, app_nil_r, <- !app_assoc.
      split; [done|]. split; [by apply Forall_app|done].
    + destruct H as (Ha & body & tail & He & Hb & ->).
      split; [done|]. exists body, []. auto.
Qed.

(** The run of the loop on a final response, shared below. *)
Lemma final_response_run lib (ev : Event) (rest : list Event)
    (raised : option Exn) (s : ExecState) (ps : list GenaiPart) :
  is_final_response ev = true ->
  content_parts ev = Ret ps ->
  consume lib (ev :: rest) raised s
  = match comprehension (_convert_genai_part_to_a2a lib)
            (List.filter carries_content ps) with
    | Ret qs =>
        (Ret tt,
         mkExecState (_active_sessions s)
           (emitted s ++ final_artifact qs
            ++ [StatusUpdate completed None true]))
    | Raise e => (Raise e, s)
    end.
Proof.
  intros Hfin Hps.
  cbn [consume]. exec. rewrite Hfin, Hps.
  destruct (comprehension _ _) as [[|q qs]|e]; exec; [done| |done].
  rewrite (add_artifact_parts lib (q :: qs)). exec.
  by rewrite <- ?app_assoc.
Qed.

(** A final response ends the loop, and neither the events after it nor
    an exception the generator would raise later are looked at.  Its
    parts that carry content are converted in order.  If every
    conversion returns, the converted parts, one per part that carries
    content and each of a supported kind, are attached as one artifact
    (none if there is nothing to show) and the task is marked
    [completed].  If a conversion raises, which happens only when the
    library refuses a field of a part, the loop raises the same and has
    emitted nothing for the event. *)
Theorem final_response_stops lib (ev : Event) (rest : list Event)
    (raised : option Exn) (s : ExecState) (ps : list GenaiPart) :
  is_final_response ev = true ->
  content_parts ev = Ret ps ->
  match comprehension (_convert_genai_part_to_a2a lib)
          (List.filter carries_content ps) with
  | Ret qs =>
      length qs = length (List.filter carries_content ps)
      /\ Forall supported qs
      /\ consume lib (ev :: rest) raised s
         = (Ret tt,
            mkExecState (_active_sessions s)
              (emitted s ++ final_artifact qs
               ++ [StatusUpdate completed None true]))
  | Raise e => consume lib (ev :: rest) raised s = (Raise e, s)
  end.
Proof.
  intros Hfin Hps.
  rewrite (final_response_run lib ev rest raised s ps Hfin Hps).
  destruct (comprehension _ _) as [qs|e] eqn:Hqs; [|done].
  split; [by apply comprehension_length in Hqs|].
  split; [by apply (filtered_parts_convert lib ps)|done].
Qed.

Lemma final_response_stops_witness :
  (let qs := [TextPart "Day 1: Asakusa" None; TextPart "Day 2: Nikko" None] in
   length qs = 2%nat
   /\ Forall supported qs
   /\ consume Scenario.lib (yielded ScenarioMore.answered_stream)
        (raised ScenarioMore.answered_stream) Scenario.idle
      = (Ret tt,
         mkExecState ∅
           ([] ++ final_artifact qs ++ [StatusUpdate completed None true])))
  /\ consume Scenario.lib (yielded ScenarioMore.binary_stream)
       (raised ScenarioMore.binary_stream) Scenario.idle
     = (Raise (ValidationError Scenario.lib "FileWithBytes.bytes"),
        Scenario.idle).
Proof.
  split.
  - exact (final_response_stops Scenario.lib
             (mkEvent true []
                (Some (mkContent (Some [Part_text "Day 1: Asakusa";
                                        Part_text "Day 2: Nikko"]))))
             [mkEvent false [] None]
             (Some (mkExn "RuntimeError" "too late")) Scenario.idle
             [Part_text "Day 1: Asakusa"; Part_text "Day 2: Nikko"]
             eq_refl eq_refl).
  - exact (final_response_stops Scenario.lib
             (mkEvent true []
                (Some (mkContent
                         (Some [Part_text "Your ticket";
                                Part_inline_data
                                  (mkBlob (Some ScenarioMore.png_magic)
                                     (Some "image/png"))]))))
             [] None Scenario.idle
             [Part_text "Your ticket";
              Part_inline_data
                (mkBlob (Some ScenarioMore.png_magic) (Some "image/png"))]
             eq_refl eq_refl).
Defined.

Lemma text_parts_convert lib (ts : list string) :
  Forall (fun t => t ≠ "") ts ->
  comprehension (_convert_genai_part_to_a2a lib)
    (List.filter carries_content (List.map Part_text ts))
  = Ret (List.map (fun t => TextPart t None) ts).
Proof.
  induction 1 as [|t ts Ht _ IH]; [done|].
  destruct t as [|c r]; [done|]. cbn [List.map List.filter].
  change (carries_content (Part_text (String c r))) with true.
  cbn [comprehension]. rewrite IH. done.
Qed.

(** A final response made of non-empty texts gives exactly one artifact
    holding those texts in order, followed by the terminal [completed]
    update. *)
Theorem final_text_answer lib (ev : Event) (rest : list Event)
    (raised : option Exn) (s : ExecState) (t : string) (ts : list string) :
  is_final_response ev = true ->
  content_parts ev = Ret (List.map Part_text (t :: ts)) ->
  Forall (fun t => t ≠ "") (t :: ts) ->
  consume lib (ev :: rest) raised s
  = (Ret tt,
     mkExecState (_active_sessions s)
       (emitted s
        ++ [ArtifactUpdate
              (List.map (fun t => ArgPart (TextPart t None)) (t :: ts));
            StatusUpdate completed None true])).
Proof.
  intros Hfin Hps Hts.
  rewrite (final_response_run lib ev rest raised s _ Hfin Hps).
  rewrite (text_parts_convert lib _ Hts).
  cbn [final_artifact List.map]. by rewrite List.map_map.
Qed.

Lemma final_text_answer_witness :
  consume Scenario.lib (yielded ScenarioMore.answered_stream)
    (raised ScenarioMore.answered_stream) Scenario.idle
  = (Ret tt,
     mkExecState ∅
       ([] ++ [ArtifactUpdate
                 [ArgPart (TextPart "Day 1: Asakusa" None);
                  ArgPart (TextPart "Day 2: Nikko" None)];
               StatusUpdate completed None true])).
Proof.
  refine (final_text_answer Scenario.lib
            (mkEvent true []
               (Some (mkContent (Some [Part_text "Day 1: Asakusa";
                                       Part_text "Day 2: Nikko"]))))
            [mkEvent false [] None]
            (Some (mkExn "RuntimeError" "too late")) Scenario.idle
            "Day 1: Asakusa" ["Day 2: Nikko"] eq_refl eq_refl _).
  repeat constructor; discriminate.
Defined.

(** The shape of what one call emits, shared below. *)
Lemma process_request_updates lib runner new_message session_id
    (s s0 : ExecState) (session_obj : Session) :
  _upsert_session runner session_id s = (Ret session_obj, s0) ->
  exists body tail,
    emitted (snd (_process_request lib runner new_message
                    session_id s))
    = (emitted s ++ body ++ tail)%list
    /\ Forall (fun u => is_terminal u = false) body
    /\ (tail = [] \/ tail = [StatusUpdate completed None true]
        \/ exists e, tail = [failed_update e]).
Proof.
  intros Hup.
  rewrite (ExecutorFacts.process_request_registered _ _ _ _ _ _ _ Hup).
  pose proof (upsert_state runner session_id s) as Hs.
  rewrite Hup in Hs. cbn in Hs. subst s0. cbv zeta.
  match goal with
  | |- context [consume ?g ?evs ?r ?st] =>
      pose proof (consume_emits g evs r st) as H;
      destruct (consume g evs r st) as [[[]|e] s2]
  end; destruct H as (_ & body & tail & He & Hb & Ht);
    cbn [emitted snd] in *; exists body.
  - exists tail. rewrite He. split; [done|]. split; [done|].
    destruct Ht as [->|[_ ->]]; auto.
  - destruct Ht as [->|[[=] _]].
    destruct (is_Exception e); cbn [emitted snd].
    + exists [failed_update e].
      rewrite He, app_nil_r, <- app_assoc. eauto 6.
    + exists []. rewrite He. auto.
Qed.

(** [_process_request] emits at most one terminal update, and if it
    emits one it is the last: the updates of a call are non-terminal ones
    followed by nothing, by [completed], or by the [failed] update of an
    exception. *)
Theorem one_terminal_update_last lib runner new_message session_id
    (s s0 : ExecState) (session_obj : Session) :
  _upsert_session runner session_id s = (Ret session_obj, s0) ->
  exists body tail,
    emitted (snd (_process_request lib runner new_message
                    session_id s))
    = (emitted s ++ body ++ tail)%list
    /\ Forall (fun u => is_terminal u = false) body
    /\ (tail = [] \/ tail = [StatusUpdate completed None true]
        \/ exists e, tail = [failed_update e]).
Proof. apply process_request_updates. Qed.

Lemma one_terminal_update_last_witness :
  exists body tail,
    emitted (snd (_process_request Scenario.lib Scenario.runner
                    [Part_text "Plan Tokyo"] "s1" Scenario.idle))
    = ([] ++ body ++ tail)%list
    /\ Forall (fun u => is_terminal u = false) body
    /\ (tail = [] \/ tail = [StatusUpdate completed None true]
        \/ exists e, tail = [failed_update e]).
Proof.
  exact (one_terminal_update_last Scenario.lib Scenario.runner
           [Part_text "Plan Tokyo"] "s1" Scenario.idle Scenario.idle
           (mkSession "s1") eq_refl).
Defined.

(** A non-final event that reports a tool call or a text gives exactly
    one update, not a terminal one, and the loop goes on. *)
Lemma handle_event_nonfinal lib (ev : Event) (s : ExecState) :
  is_final_response ev = false ->
  progressing ev ->
  exists u,
    is_terminal u = false
    /\ handle_event lib ev s
       = (Ret false, mkExecState (_active_sessions s) (emitted s ++ [u])).
Proof.
  intros Hfin Hread. exec. rewrite Hfin.
  destruct (get_function_calls ev) as [|fc fcs] eqn:Hfc.
  - destruct Hread as [Hne|[ps [Hps Hts]]]; [done|]. rewrite Hps.
    destruct (text_fragments ps); [done|]. exec.
    by eexists (StatusUpdate working _ false).
  - exec. by exists (StatusUpdate working None false).
Qed.

Lemma consume_unfinished lib (evs : list Event) (s : ExecState) :
  Forall (fun ev => is_final_response ev = false /\ progressing ev) evs ->
  exists new,
    consume lib evs None s
    = (Ret tt, mkExecState (_active_sessions s) (emitted s ++ new))
    /\ length new = length evs
    /\ Forall (fun u => is_terminal u = false) new.
Proof.
  intros H. revert s.
  induction H as [|ev evs [Hfin Hread] _ IH]; intros s.
  - exists []. rewrite app_nil_r. by destruct s.
  - destruct (handle_event_nonfinal lib ev s Hfin Hread)
      as (u & Hu & Hrun).
    cbn [consume]. unfold bind at 1. rewrite Hrun.
    destruct (IH (mkExecState (_active_sessions s) (emitted s ++ [u])))
      as (new & -> & Hlen & Hnew).
    exists (u :: new). cbn [_active_sessions emitted length].
    rewrite <- app_assoc. split; [done|]. split; [by rewrite Hlen|].
    by constructor.
Qed.

(** Events that each report a tool call or a text are worked off one
    update at a time, and the loop goes on with what follows them. *)
Lemma consume_progressing lib (pre rest : list Event) (raised : option Exn)
    (s : ExecState) :
  Forall (fun ev => is_final_response ev = false /\ progressing ev) pre ->
  exists new,
    consume lib (pre ++ rest) raised s
    = consume lib rest raised
        (mkExecState (_active_sessions s) (emitted s ++ new))
    /\ length new = length pre
    /\ Forall (fun u => is_terminal u = false) new.
Proof.
  intros H. revert s.
  induction H as [|ev evs [Hfin Hread] _ IH]; intros s.
  - exists []. rewrite app_nil_r. by destruct s.
  - destruct (handle_event_nonfinal lib ev s Hfin Hread)
      as (u & Hu & Hrun).
    cbn [consume app]. unfold bind at 1. rewrite Hrun.
    destruct (IH (mkExecState (_active_sessions s) (emitted s ++ [u])))
      as (new & -> & Hlen & Hnew).
    exists (u :: new). cbn [_active_sessions emitted length].
    rewrite <- app_assoc. split; [done|]. split; [by rewrite Hlen|].
    by constructor.
Qed.

(** A non-final event without a tool call and without any non-empty
    text takes the fallback branch, whose artifact the task updater
    refuses: the event raises a validation error and emits nothing. *)
Lemma handle_event_fallback lib (ev : Event) (s : ExecState)
    (ps : list GenaiPart) :
  is_final_response ev = false ->
  get_function_calls ev = [] ->
  content_parts ev = Ret ps ->
  text_fragments ps = [] ->
  handle_event lib ev s = (Raise (ValidationError lib "Artifact.parts"), s).
Proof.
  intros Hfin Hfc Hps Hts. exec. by rewrite Hfin, Hfc, Hps, Hts.
Qed.

(** The fallback branch of the loop never succeeds.  When the stream,
    after events that each report a tool call or a text, yields a
    non-final event with no tool call and no non-empty text, the artifact
    the branch hands to the task updater is refused; the error is caught
    like any other, so the request ends with the terminal [failed]
    update, the later events are not looked at, and the session is out
    of the in-flight set. *)
Theorem fallback_event_fails lib runner new_message session_id
    (s s0 : ExecState) (session_obj : Session) (pre post : list Event)
    (ev : Event) (ps : list GenaiPart) :
  _upsert_session runner session_id s = (Ret session_obj, s0) ->
  let stream :=
    run_async runner (id session_obj) DEFAULT_USER_ID new_message in
  yielded stream = (pre ++ ev :: post)%list ->
  Forall (fun ev => is_final_response ev = false /\ progressing ev) pre ->
  is_final_response ev = false ->
  get_function_calls ev = [] ->
  content_parts ev = Ret ps ->
  text_fragments ps = [] ->
  exists new,
    _process_request lib runner new_message session_id s
    = (Ret tt,
       mkExecState (_active_sessions s ∖ {[id session_obj]})
         (emitted s ++ new
          ++ [failed_update (ValidationError lib "Artifact.parts")]))
    /\ length new = length pre
    /\ Forall (fun u => is_terminal u = false) new.
Proof.
  intros Hup stream Hy Hpre Hfin Hfc Hps Hts.
  rewrite (ExecutorFacts.process_request_registered _ _ _ _ _ _ _ Hup).
  pose proof (upsert_state runner session_id s) as Hs.
  rewrite Hup in Hs. cbn in Hs. subst s0. cbv zeta. fold stream.
  rewrite Hy.
  destruct (consume_progressing lib pre (ev :: post) (raised stream)
              (mkExecState ({[id session_obj]} ∪ _active_sessions s)
                 (emitted s)) Hpre) as (new & -> & Hlen & Hnew).
  cbn [consume]. unfold bind at 1.
  rewrite (handle_event_fallback lib ev _ ps Hfin Hfc Hps Hts).
  change (is_Exception (ValidationError lib "Artifact.parts")) with true.
  exists new. cbn [_active_sessions emitted]. split; [|done].
  rewrite <- app_assoc. f_equal. f_equal. apply set_eq. intros x.
  rewrite !elem_of_difference, elem_of_union, elem_of_singleton. tauto.
Qed.

Lemma fallback_event_fails_witness :
  exists new,
    _process_request Scenario.lib ScenarioMore.silent_runner
      [Part_text "Plan Tokyo"] "s1" Scenario.idle
    = (Ret tt,
       mkExecState (∅ ∖ {[ "s1" ]})
         ([] ++ new
          ++ [failed_update
                (ValidationError Scenario.lib "Artifact.parts")]))
    /\ length new = 1%nat
    /\ Forall (fun u => is_terminal u = false) new.
Proof.
  refine (fallback_event_fails Scenario.lib ScenarioMore.silent_runner
            [Part_text "Plan Tokyo"] "s1" Scenario.idle Scenario.idle
            (mkSession "s1")
            [mkEvent false ["search_flights"] None]
            [mkEvent true []
               (Some (mkContent (Some [Part_text "Day 1: Asakusa"])))]
            (mkEvent false []
               (Some (mkContent (Some [Part_text ""]))))
            [Part_text ""]
            eq_refl eq_refl _ eq_refl eq_refl eq_refl eq_refl).
  constructor; [split; [reflexivity | left; discriminate]|].
  constructor.
Defined.

(** A stream of events that each report a tool call in progress or at
    least one non-empty text, and that ends without a final response and
    without an exception, leaves the task without a terminal update: the
    call emits one non-terminal update per event and returns. *)
Theorem unfinished_stream_is_not_terminal lib runner new_message
    session_id (s s0 : ExecState) (session_obj : Session) :
  _upsert_session runner session_id s = (Ret session_obj, s0) ->
  let stream :=
    run_async runner (id session_obj) DEFAULT_USER_ID new_message in
  raised stream = None ->
  Forall (fun ev => is_final_response ev = false /\ progressing ev)
    (yielded stream) ->
  exists new,
    _process_request lib runner new_message session_id s
    = (Ret tt,
       mkExecState (_active_sessions s ∖ {[id session_obj]})
         (emitted s ++ new))
    /\ length new = length (yielded stream)
    /\ Forall (fun u => is_terminal u = false) new.
Proof.
  intros Hup stream Hraised Hevs.
  rewrite (ExecutorFacts.process_request_registered _ _ _ _ _ _ _ Hup).
  pose proof (upsert_state runner session_id s) as Hs.
  rewrite Hup in Hs. cbn in Hs. subst s0. cbv zeta. fold stream.
  rewrite Hraised.
  destruct (consume_unfinished lib (yielded stream)
              (mkExecState ({[id session_obj]} ∪ _active_sessions s)
                 (emitted s)) Hevs) as (new & -> & Hlen & Hnew).
  exists new. cbn [_active_sessions emitted]. split; [|done].
  f_equal. f_equal. apply set_eq. intros x.
  rewrite !elem_of_difference, elem_of_union, elem_of_singleton. tauto.
Qed.

Lemma unfinished_stream_is_not_terminal_witness :
  exists new,
    _process_request Scenario.lib ScenarioMore.unfinished_runner
      [Part_text "Plan Tokyo"] "s1" ScenarioMore.busy
    = (Ret tt, mkExecState ({[ "s7" ]} ∖ {[ "s1" ]}) ([] ++ new))
    /\ length new = 2%nat
    /\ Forall (fun u => is_terminal u = false) new.
Proof.
  refine (unfinished_stream_is_not_terminal Scenario.lib
            ScenarioMore.unfinished_runner [Part_text "Plan Tokyo"] "s1"
            ScenarioMore.busy ScenarioMore.busy (mkSession "s1")
            eq_refl eq_refl _).
  constructor;
    [split; [reflexivity | right; eexists; split; [reflexivity|done]]|].
  constructor; [split; [reflexivity | left; discriminate]|].
  constructor.
Defined.

(** A call changes the in-flight set for its own session only, and only
    adds to what the sink has received. *)
Theorem other_sessions_untouched lib runner new_message session_id
    (s s0 : ExecState) (session_obj : Session) (other : string) :
  _upsert_session runner session_id s = (Ret session_obj, s0) ->
  other ≠ id session_obj ->
  let s' := snd (_process_request lib runner new_message
                   session_id s) in
  (other ∈ _active_sessions s' <-> other ∈ _active_sessions s)
  /\ exists new, emitted s' = (emitted s ++ new)%list.
Proof.
  intros Hup Hother.
  rewrite (ExecutorFacts.process_request_registered _ _ _ _ _ _ _ Hup).
  pose proof (upsert_state runner session_id s) as Hs.
  rewrite Hup in Hs. cbn in Hs. subst s0. cbv zeta.
  match goal with
  | |- context [consume ?g ?evs ?r ?st] =>
      pose proof (consume_emits g evs r st) as H;
      destruct (consume g evs r st) as [[[]|e] s2]
  end; destruct H as (Ha & body & tail & He & _);
    [|destruct (is_Exception e)];
    cbn [_active_sessions emitted snd] in *; rewrite Ha.
  - split; [rewrite elem_of_difference, elem_of_union, elem_of_singleton;
             tauto|].
    exists (body ++ tail)%list. by rewrite He.
  - split; [rewrite elem_of_difference, elem_of_union, elem_of_singleton;
             tauto|].
    exists ((body ++ tail) ++ [failed_update e])%list.
    by rewrite He, <- !app_assoc.
  - split; [rewrite elem_of_difference, elem_of_union, elem_of_singleton;
             tauto|].
    exists (body ++ tail)%list. by rewrite He.
Qed.

Lemma other_sessions_untouched_witness :
  let s' := snd (_process_request Scenario.lib Scenario.runner
                   [Part_text "Plan Tokyo"] "s1" ScenarioMore.busy) in
  ("s7" ∈ _active_sessions s' <-> "s7" ∈ _active_sessions ScenarioMore.busy)
  /\ exists new, emitted s' = ([] ++ new)%list.
Proof.
  refine (other_sessions_untouched Scenario.lib Scenario.runner
            [Part_text "Plan Tokyo"] "s1" ScenarioMore.busy
            ScenarioMore.busy (mkSession "s1") "s7" eq_refl _).
  discriminate.
Defined.

(** The comprehension over the inbound parts stops at the first data
    part, when the parts before it convert. *)
Lemma data_part_stops_comprehension lib (pre post : list A2APart)
    (gs : list GenaiPart) d m :
  comprehension (_convert_a2a_part_to_genai lib) pre = Ret gs ->
  comprehension (_convert_a2a_part_to_genai lib)
    (pre ++ DataPart d m :: post)
  = Raise (ValueError "Unsupported part type: <class 'a2a.types.DataPart'>").
Proof.
  revert gs; induction pre as [|p pre IH]; intros gs; [done|].
  cbn [comprehension app].
  destruct (_convert_a2a_part_to_genai lib p) as [g|e]; [|done].
  destruct (comprehension _ pre) as [gs'|e] eqn:Hpre; [|done].
  intros _. by rewrite (IH gs').
Qed.

(** [execute] on a message with a data part, when the parts before the
    data part convert: the task is announced ([submitted] for a new task,
    then [working]) and the conversion error leaves [execute] as a
    [ValueError]; no terminal update is emitted, the session service is
    not asked and the in-flight set is as before. *)
Theorem execute_unsupported_part lib runner
    (context : RequestContext) (s : ExecState) (pre post : list A2APart)
    (gs : list GenaiPart) d m :
  message context = Some (pre ++ DataPart d m :: post)%list ->
  comprehension (_convert_a2a_part_to_genai lib) pre = Ret gs ->
  execute lib runner context s
  = (Raise (ValueError "Unsupported part type: <class 'a2a.types.DataPart'>"),
     mkExecState (_active_sessions s) (emitted s ++ opening context)).
Proof.
  intros Hmsg Hpre. unfold opening. exec. rewrite Hmsg.
  rewrite (data_part_stops_comprehension lib pre post gs d m Hpre).
  destruct (current_task context); exec; by rewrite <- ?app_assoc.
Qed.

Lemma execute_unsupported_part_witness :
  execute Scenario.lib Scenario.runner
    (ScenarioMore.new_task [TextPart "Plan Tokyo" None;
                            DataPart (VDict [("days", VInt 5)]) None])
    ScenarioMore.busy
  = (Raise (ValueError "Unsupported part type: <class 'a2a.types.DataPart'>"),
     mkExecState {[ "s7" ]}
       ([] ++ [StatusUpdate submitted None false;
               StatusUpdate working None false])).
Proof.
  exact (execute_unsupported_part Scenario.lib Scenario.runner
           (ScenarioMore.new_task [TextPart "Plan Tokyo" None;
                                   DataPart (VDict [("days", VInt 5)]) None])
           ScenarioMore.busy [TextPart "Plan Tokyo" None] []
           [Part_text "Plan Tokyo"] (VDict [("days", VInt 5)]) None
           eq_refl eq_refl).
Defined.

(** Whatever happens afterwards, the first updates of [execute] are
    [submitted] exactly when there is no current task, and then
    [working]; everything else it emits comes after them, and what the
    sink held before is kept. *)
Theorem execute_announces_first lib runner
    (context : RequestContext) (s : ExecState) :
  exists rest,
    emitted (snd (execute lib runner context s))
    = (emitted s ++ opening context ++ rest)%list.
Proof.
  unfold opening. exec.
  set (s1 := mkExecState (_active_sessions s)
               (emitted s
                ++ match current_task context with
                   | None => [StatusUpdate submitted None false]
                   | Some _ => []
                   end ++ [StatusUpdate working None false])).
  assert (forall user_content,
            exists rest,
              emitted (snd (_process_request lib runner user_content
                              (context_id context) s1))
              = (emitted s1 ++ rest)%list) as Hproc.
  { intros uc.
    destruct (_upsert_session runner (context_id context) s1)
      as [[obj|e] s0] eqn:Hup.
    - destruct (process_request_updates lib runner uc _ _ _ _ Hup)
        as (body & tail & -> & _). by exists (body ++ tail)%list.
    - rewrite (ExecutorFacts.process_request_upsert_raises _ _ _ _ _ _ _ Hup).
      exists []. by rewrite app_nil_r. }
  assert (match current_task context with
          | Some _ => ret tt
          | None => update_status submitted None false
          end s
          = (Ret tt,
             mkExecState (_active_sessions s)
               (emitted s
                ++ match current_task context with
                   | None => [StatusUpdate submitted None false]
                   | Some _ => []
                   end))) as Hopen.
  { destruct (current_task context); exec; [|done].
    rewrite app_nil_r. by destruct s. }
  revert Hopen. exec. intros ->. exec. rewrite <- app_assoc. fold s1.
  destruct (message context) as [ps|]; [|exists []; by rewrite app_nil_r].
  destruct (comprehension (_convert_a2a_part_to_genai lib) ps) as [uc|e];
    [|exists []; by rewrite app_nil_r].
  destruct uc as [|g uc]; cbn [UserContent];
    [exists []; by rewrite app_nil_r|].
  destruct (Hproc (g :: uc)) as (rest & ->). exists rest.
  subst s1. cbn [emitted]. by rewrite <- !app_assoc.
Qed.

(** [cancel] never builds the unsupported-operation error it means to
    raise: the error class takes no positional argument, so the call
    always ends with a [TypeError].  Before that it has taken the
    session out of the in-flight set, left every other session where it
    was, and emitted nothing. *)
Theorem cancel_discards_and_raises lib
    (context : RequestContext) (s : ExecState) :
  let result := cancel lib context s in
  fst result
  = Raise (mkExn "TypeError" (library_message lib "UnsupportedOperationError"))
  /\ (context_id context ∉ _active_sessions (snd result))
  /\ (forall other, other ≠ context_id context ->
        other ∈ _active_sessions (snd result) <-> other ∈ _active_sessions s)
  /\ emitted (snd result) = emitted s.
Proof.
  exec. destruct (bool_decide _) eqn:Hin; exec;
    cbn [fst snd _active_sessions emitted].
  - split; [done|]. split; [|split; [|done]].
    + rewrite elem_of_difference, elem_of_singleton. tauto.
    + intros other Ho. rewrite elem_of_difference, elem_of_singleton. tauto.
  - apply bool_decide_eq_false in Hin. done.
Qed.

End ExecutorMore.

(* ===================================================================== *)
(** ** More of the routing agent: requests, telemetry, session helpers *)
(* ===================================================================== *)

Module RoutingMore.

Import Routing RoutingSession Spec SpecMore RoutingFacts.

Lemma falsy_context_field (v : pyval) :
  truthy v = false -> context_field v = None.
Proof. by destruct v as [| | | |[|c r]| |]. Qed.

(** A request that was built: JSON-RPC id and message id agree, the role
    is "user", the task text is the only part, and no task id is carried. *)
Lemma build_request_shape self agent_name task client (h h' : Heap)
    (r : SendMessageRequest) :
  build_request self agent_name task client h = (Ret r, h') ->
  id r = messageId (params r)
  /\ role (params r) = "user"
  /\ parts (params r) = [task]
  /\ taskId (params r) = None.
Proof.
  run. rewrite lookup_insert_eq, lookup_insert_ne by done.
  replace (str_eq agent_name (default VNone (Some (VStr agent_name))))
    with true by (symmetry; apply String.eqb_refl).
  rewrite andb_true_r.
  destruct (truthy (default VNone (state h !! "task_id"))) eqn:Ht; step;
    [intros [=]|].
  repeat (case_match; step); intros Hb; simplify_eq;
    match goal with
    | H : model_validate _ = Ret _ |- _ =>
        apply model_validate_built in H as [mid [_ ->]]
    end; cbn; by rewrite (falsy_context_field _ Ht).
Qed.

(** One call sends at most one request (there is no retry), and a request
    it sends has the JSON-RPC id equal to the message id, the role "user",
    the task text as its single part, and never a [taskId]. *)
Theorem at_most_one_request self agent_name task (h : Heap) :
  exists new,
    sent_requests (effects (snd (send_message self agent_name task h)))
    = (sent_requests (effects h) ++ new)%list
    /\ (length new <= 1)%nat
    /\ Forall (fun r => id r = messageId (params r)
                        /\ role (params r) = "user"
                        /\ parts (params r) = [task]
                        /\ taskId (params r) = None) new.
Proof.
  destruct (remote_agent_connections self !! agent_name) as [client|] eqn:Hc.
  - pose proof (send_message_heap self agent_name task h client Hc)
      as (_ & rest & He & _ & Hr). cbv zeta in He.
    rewrite He, sent_requests_app. cbn [sent_requests].
    destruct (build_request self agent_name task client (tick h))
      as [[r|e] h2] eqn:Hb.
    + exists [r]. rewrite Hr. split; [done|]. split; [done|].
      constructor; [|done]. by apply (build_request_shape _ _ _ _ _ _ _ Hb).
    + exists []. rewrite Hr. cbn. split; [done|]. split; [lia|constructor].
  - rewrite (send_message_unregistered _ _ _ _ Hc). cbn [snd tick effects].
    exists []. rewrite app_nil_r. cbn. split; [done|].
    split; [lia|constructor].
Qed.

Lemma dispatch_effects self agent_name client start_time
    (r : SendMessageRequest) (h : Heap) :
  effects (snd (dispatch self agent_name client start_time r h))
  = (effects h
     ++ Send (agent_url client) r
        :: match agent_client_send self client r with
           | Ret _ =>
               [Post trace_url
                  (VDict [("agent_name",
                           VStr (replace_char "&" "_"
                                   (replace_char " " "_" (lower agent_name))));
                          ("project_name", VStr "MakeEasyTravel");
                          ("trace_id", get_current_trace_id self);
                          ("processed_status", VBool false)])]
           | Raise _ => []
           end)%list.
Proof.
  run. destruct (agent_client_send self client r) as [resp|e]; step.
  - destruct (requests_post self _ _); destruct resp as [c m|[t|m]]; step;
      by rewrite <- app_assoc.
  - done.
Qed.

(** The effects of a call on a registered agent, in order: the write of
    the active agent; then, if a request was built, the request; then, only
    if the remote agent answered it, one push of trace metadata.  A call
    whose send raised pushes nothing. *)
Theorem telemetry_only_after_response self agent_name task (h : Heap)
    client :
  remote_agent_connections self !! agent_name = Some client ->
  exists rest,
    effects (snd (send_message self agent_name task h))
    = (effects h ++ SetState "active_agent" (VStr agent_name) :: rest)%list
    /\ (rest = []
        \/ (exists r e,
              agent_client_send self client r = Raise e
              /\ rest = [Send (agent_url client) r])
        \/ (exists r response payload,
              agent_client_send self client r = Ret response
              /\ item "processed_status" payload = Some (VBool false)
              /\ rest = [Send (agent_url client) r;
                         Post trace_url payload])).
Proof.
  intros Hc. rewrite (send_message_registered _ _ _ _ _ Hc).
  pose proof (build_request_heap self agent_name task client (tick h))
    as (_ & He & _).
  destruct (build_request self agent_name task client (tick h))
    as [[r|e] h2]; cbn [snd] in *.
  - rewrite dispatch_effects, He, <- app_assoc. cbn [app].
    eexists. split; [reflexivity|].
    destruct (agent_client_send self client r) as [resp|e] eqn:Hs.
    + right. right. eexists r, resp, _. split; [done|].
      split; [|reflexivity]. reflexivity.
    + right. left. by exists r, e.
  - rewrite He. exists []. by split; [|left].
Qed.

Lemma telemetry_only_after_response_witness :
  let self :=
    Scenario.world
      (Raise (mkExn "ConnectError" "All connection attempts failed")) in
  exists rest,
    effects (snd (send_message self "BudgetAgent" "Estimate"
                    (Scenario.fresh ∅)))
    = ([] ++ SetState "active_agent" (VStr "BudgetAgent") :: rest)%list
    /\ (rest = []
        \/ (exists r e,
              agent_client_send self Scenario.budget r = Raise e
              /\ rest = [Send "http://0.0.0.0:10007" r])
        \/ (exists r response payload,
              agent_client_send self Scenario.budget r = Ret response
              /\ item "processed_status" payload = Some (VBool false)
              /\ rest = [Send "http://0.0.0.0:10007" r;
                         Post trace_url payload])).
Proof.
  exact (telemetry_only_after_response
           (Scenario.world
              (Raise (mkExn "ConnectError" "All connection attempts failed")))
           "BudgetAgent" "Estimate" (Scenario.fresh ∅) Scenario.budget
           eq_refl).
Defined.

Lemma response_outcome_but_elapsed self self' agent_name (t t' : Z)
    (r : SendMessageResponse) :
  model_dump self' = model_dump self ->
  same_but "elapsed_seconds" (Ret (response_outcome self agent_name t r))
    (Ret (response_outcome self' agent_name t' r)).
Proof.
  intros Hd. destruct r as [c m|[task|m]]; cbn [response_outcome];
    [reflexivity| |reflexivity].
  rewrite Hd. reflexivity.
Qed.

(** Telemetry cannot change a delegation beyond the time it takes: with
    any other trace id, any other behaviour of the metrics endpoint,
    failing or not, and whatever the clock reads as a consequence, the
    call ends the same way (it raises the same exception, or it returns
    an outcome that agrees on every entry other than [elapsed_seconds]),
    leaves the same session state and sends the same request. *)
Theorem telemetry_cannot_change_outcome self (trace_id : pyval)
    (post : string -> pyval -> option string) (clock' : nat -> Z)
    agent_name task (h : Heap) :
  let result := send_message self agent_name task h in
  let result' :=
    send_message (with_telemetry self trace_id post clock') agent_name task
      h in
  same_but "elapsed_seconds" (fst result) (fst result')
  /\ state (snd result') = state (snd result)
  /\ sent_requests (effects (snd result'))
     = sent_requests (effects (snd result)).
Proof.
  cbv zeta. set (self' := with_telemetry self trace_id post clock').
  destruct (remote_agent_connections self !! agent_name) as [client|] eqn:Hc.
  - rewrite (send_message_registered self _ _ _ _ Hc).
    rewrite (send_message_registered self' _ _ _ client Hc).
    change (build_request self') with (build_request self).
    destruct (build_request self agent_name task client (tick h))
      as [[r|e] h2]; [|done].
    pose proof (dispatch_heap self agent_name client
                  (clock self (clock_reads h)) r h2) as (Hst & _).
    pose proof (dispatch_heap self' agent_name
                  client (clock self' (clock_reads h)) r h2) as (Hst' & _).
    cbv zeta in Hst, Hst'. rewrite Hst, Hst'.
    rewrite !dispatch_effects, !sent_requests_app.
    change (agent_client_send self') with (agent_client_send self).
    destruct (agent_client_send self client r) as [resp|e] eqn:Hs.
    + rewrite (dispatch_answer self _ _ _ _ _ _ Hs).
      rewrite (dispatch_answer self' _ _ _ _ _ _ Hs).
      split; [by apply response_outcome_but_elapsed | done].
    + rewrite (dispatch_raise self _ _ _ _ _ _ Hs).
      by rewrite (dispatch_raise self' _ _ _ _ _ _ Hs).
  - rewrite (send_message_unregistered self _ _ _ Hc).
    by rewrite (send_message_unregistered self' _ _ _ Hc).
Qed.

(** What a call on a registered agent sends is what [build_request]
    built. *)
Lemma sent_is_built self agent_name task (h : Heap) client :
  remote_agent_connections self !! agent_name = Some client ->
  exists new,
    sent_requests (effects (snd (send_message self agent_name task h)))
    = (sent_requests (effects h) ++ new)%list
    /\ match build_request self agent_name task client (tick h) with
       | (Ret r, _) => new = [r]
       | (Raise _, _) => new = []
       end.
Proof.
  intros Hc.
  pose proof (send_message_heap self agent_name task h client Hc)
    as (_ & rest & He & _ & Hr). cbv zeta in He.
  exists (sent_requests rest). rewrite He, sent_requests_app.
  split; [done|].
  destruct (build_request self agent_name task client (tick h))
    as [[r|e] h2]; [done | by rewrite Hr].
Qed.

Ltac enter_build :=
  run; rewrite lookup_insert_eq, lookup_insert_ne by done;
  replace (str_eq ?[a] (default VNone (Some (VStr ?a))))
    with true by (symmetry; apply String.eqb_refl);
  rewrite andb_true_r.

Lemma build_request_message_id self agent_name task client (h h' : Heap)
    (r : SendMessageRequest) d (v : pyval) :
  build_request self agent_name task client h = (Ret r, h') ->
  state h !! "input_message_metadata" = Some (VDict d) ->
  dict_get "message_id" d = Some v ->
  truthy v = true ->
  VStr (messageId (params r)) = v.
Proof.
  intros Hb Hm Hd Hv. revert Hb. enter_build.
  destruct (truthy (default VNone (state h !! "task_id"))); step;
    [intros [=]|].
  rewrite !lookup_insert_ne by done.
  destruct (state h !! "context_id"); step;
    rewrite ?lookup_insert_ne by done; rewrite Hm; step; rewrite Hd; step;
    rewrite Hv; step;
    (destruct (model_validate _) as [msg|e] eqn:Hval; step;
     [|intros [=]]); intros [= <- _];
    by apply model_validate_built in Hval as [mid [-> ->]].
Qed.

(** A message id carried in [input_message_metadata] is reused in place:
    every request of the call has it as its message id and as its JSON-RPC
    id. *)
Theorem message_id_reused self agent_name task (h : Heap) d
    (message_id : string) :
  state h !! "input_message_metadata" = Some (VDict d) ->
  dict_get "message_id" d = Some (VStr message_id) ->
  message_id ≠ "" ->
  exists new,
    sent_requests (effects (snd (send_message self agent_name task h)))
    = (sent_requests (effects h) ++ new)%list
    /\ Forall (fun r => messageId (params r) = message_id
                        /\ id r = message_id) new.
Proof.
  intros Hm Hd Hne.
  destruct (remote_agent_connections self !! agent_name) as [client|] eqn:Hc.
  - destruct (sent_is_built self agent_name task h client Hc)
      as (new & Hsent & Hnew).
    exists new. split; [done|].
    destruct (build_request self agent_name task client (tick h))
      as [[r|e] h2] eqn:Hb; subst new; constructor; [|done].
    pose proof (build_request_shape _ _ _ _ _ _ _ Hb) as (Hid & _).
    assert (VStr (messageId (params r)) = VStr message_id) as [= Hmid].
    { apply (build_request_message_id _ _ _ _ _ _ _ d _ Hb Hm Hd).
      by destruct message_id. }
    by rewrite Hid.
  - rewrite (send_message_unregistered _ _ _ _ Hc). cbn [snd tick effects].
    exists []. by rewrite app_nil_r.
Qed.

Lemma message_id_reused_witness :
  exists new,
    sent_requests
      (effects
         (snd (send_message Scenario.answers_t1 "BudgetAgent" "Estimate"
                 (Scenario.fresh
                    {[ "input_message_metadata"
                       := VDict [("message_id", VStr "m-42")] ]}))))
    = ([] ++ new)%list
    /\ Forall (fun r => messageId (params r) = "m-42" /\ id r = "m-42") new.
Proof.
  refine (message_id_reused Scenario.answers_t1 "BudgetAgent" "Estimate"
            (Scenario.fresh
               {[ "input_message_metadata"
                  := VDict [("message_id", VStr "m-42")] ]})
            [("message_id", VStr "m-42")] "m-42" eq_refl eq_refl _).
  discriminate.
Defined.

Lemma model_validate_plain task (mid ctx : string) :
  model_validate (build_params_data task (VStr mid) VNone (VStr ctx))
  = Ret (mkMessage "user" [task] mid None (context_field (VStr ctx))).
Proof. by destruct ctx. Qed.

(** On a session state with no task id, no message metadata, and a
    context id that is absent or a string, a request is always built. *)
Lemma build_request_plain self agent_name task client (h : Heap) :
  state h !! "task_id" = None ->
  state h !! "input_message_metadata" = None ->
  (state h !! "context_id" = None
   \/ exists ctx, state h !! "context_id" = Some (VStr ctx)) ->
  exists r h2, build_request self agent_name task client h = (Ret r, h2).
Proof.
  intros Ht Hm Hc. enter_build. rewrite Ht.
  change (truthy (default VNone None)) with false. step.
  rewrite !lookup_insert_ne by done.
  destruct Hc as [Hc|[ctx Hc]]; rewrite Hc; step;
    rewrite ?lookup_insert_ne by done; rewrite Hm; step;
    change (truthy (VStr "")) with false; step;
    change (default VNone None) with VNone;
    rewrite model_validate_plain; step; eauto.
Qed.

(** On such a session state a delegation to a registered agent never
    raises: whatever the remote agent does, the call sends exactly one
    request and returns an outcome that names the agent and whose status
    is "success" or "error". *)
Theorem plain_session_returns_outcome self agent_name task (h : Heap)
    client :
  remote_agent_connections self !! agent_name = Some client ->
  state h !! "task_id" = None ->
  state h !! "input_message_metadata" = None ->
  (state h !! "context_id" = None
   \/ exists ctx, state h !! "context_id" = Some (VStr ctx)) ->
  let result := send_message self agent_name task h in
  exists outcome r,
    fst result = Ret outcome
    /\ item "agent_name" outcome = Some (VStr agent_name)
    /\ (item "status" outcome = Some (VStr "success")
        \/ item "status" outcome = Some (VStr "error"))
    /\ sent_requests (effects (snd result))
       = (sent_requests (effects h) ++ [r])%list.
Proof.
  intros Hc Ht Hm Hctx. cbv zeta.
  destruct (build_request_plain self agent_name task client (tick h)
              Ht Hm Hctx) as (r & h2 & Hb).
  destruct (sent_is_built self agent_name task h client Hc)
    as (new & Hsent & Hnew). rewrite Hb in Hnew. subst new.
  rewrite (send_message_registered _ _ _ _ _ Hc), Hb in *.
  destruct (agent_client_send self client r) as [resp|e] eqn:Hs.
  - rewrite (dispatch_answer _ _ _ _ _ _ _ Hs).
    eexists _, r. split; [reflexivity|]. split; [|split; [|done]].
    + by destruct resp as [c m|[t|m]].
    + destruct resp as [c m|[t|m]]; [by right | by left | by right].
  - rewrite (dispatch_raise _ _ _ _ _ _ _ Hs) in *.
    eexists _, r. split; [reflexivity|]. unfold on_send_exception.
    destruct (str_in _ _ || str_in _ _);
      (split; [done|]); (split; [by right|done]).
Qed.

Lemma plain_session_returns_outcome_witness :
  let result :=
    send_message Scenario.answers_t1 "BudgetAgent" "Estimate"
      (Scenario.fresh ∅) in
  exists outcome r,
    fst result = Ret outcome
    /\ item "agent_name" outcome = Some (VStr "BudgetAgent")
    /\ (item "status" outcome = Some (VStr "success")
        \/ item "status" outcome = Some (VStr "error"))
    /\ sent_requests (effects (snd result)) = ([] ++ [r])%list.
Proof.
  exact (plain_session_returns_outcome Scenario.answers_t1 "BudgetAgent"
           "Estimate" (Scenario.fresh ∅) Scenario.budget eq_refl eq_refl
           eq_refl (or_introl eq_refl)).
Defined.

Ltac session :=
  cbv beta iota zeta delta
    [before_model_callback state_set state_lookup log str_uuid4 bind ret
     modify get negb fst snd];
  cbn [state uuids_drawn clock_reads effects].

(** What [before_model_callback] does to the session state. *)
Lemma callback_state self (h : Heap) :
  let result := before_model_callback self h in
  fst result = Ret tt
  /\ state (snd result)
     = match state h !! "session_active" with
       | Some v =>
           if truthy v then state h
           else
             <["session_active" := VBool true]>
               (match state h !! "session_id" with
                | Some _ => state h
                | None =>
                    <["session_id" :=
                        VStr (uuid_str
                                (uuid4_int
                                   (random_bits self (uuids_drawn h))))]>
                      (state h)
                end)
       | None =>
           <["session_active" := VBool true]>
             (match state h !! "session_id" with
              | Some _ => state h
              | None =>
                  <["session_id" :=
                      VStr (uuid_str
                              (uuid4_int
                                 (random_bits self (uuids_drawn h))))]>
                    (state h)
              end)
       end.
Proof.
  session. destruct (state h !! "session_active") as [v|].
  - destruct (truthy v); session; [done|].
    by destruct (state h !! "session_id").
  - session. by destruct (state h !! "session_id").
Qed.

(** The postcondition of [before_model_callback], shared below. *)
Lemma callback_effect self (h : Heap) :
  let h' := snd (before_model_callback self h) in
  session_is_active (state h') = true
  /\ (session_is_active (state h) = false ->
      is_Some (state h' !! "session_id"))
  /\ (forall v, state h !! "session_id" = Some v ->
                state h' !! "session_id" = Some v)
  /\ (forall k, k ≠ "session_id" -> k ≠ "session_active" ->
                state h' !! k = state h !! k).
Proof.
  pose proof (callback_state self h) as (_ & Hs). cbv zeta in *.
  rewrite Hs. clear Hs. unfold session_is_active.
  destruct (state h !! "session_active") as [a|] eqn:Ha;
    [destruct (truthy a) eqn:Hta|].
  - rewrite Ha, Hta. repeat split; [discriminate | done..].
  - destruct (state h !! "session_id") as [i|] eqn:Hi;
      rewrite lookup_insert_eq; repeat split; intros;
      rewrite ?lookup_insert_ne by done;
      rewrite ?lookup_insert_eq, ?lookup_insert_ne by done;
      eauto; try done; congruence.
  - destruct (state h !! "session_id") as [i|] eqn:Hi;
      rewrite lookup_insert_eq; repeat split; intros;
      rewrite ?lookup_insert_ne by done;
      rewrite ?lookup_insert_eq, ?lookup_insert_ne by done;
      eauto; try done; congruence.
Qed.

(** After [before_model_callback] the session is marked active, and a
    session that was not active before has a session id.  A session id
    that was already there is kept, and no key other than [session_id]
    and [session_active] is touched.  On a state that is already marked
    active the callback does nothing at all: it writes nothing and draws
    no identifier, so such a state is left as it is, also when it has no
    session id. *)
Theorem callback_establishes_session self (h : Heap) :
  let h' := snd (before_model_callback self h) in
  session_is_active (state h') = true
  /\ (session_is_active (state h) = false ->
      is_Some (state h' !! "session_id"))
  /\ (forall v, state h !! "session_id" = Some v ->
                state h' !! "session_id" = Some v)
  /\ (forall k, k ≠ "session_id" -> k ≠ "session_active" ->
                state h' !! k = state h !! k)
  /\ (session_is_active (state h) = true ->
      before_model_callback self h = (Ret tt, h)).
Proof.
  pose proof (callback_effect self h) as (H1 & H2 & H3 & H4).
  cbv zeta in *. repeat (split; [assumption|]).
  unfold session_is_active. session.
  destruct (state h !! "session_active") as [v|]; [|done].
  by intros ->.
Qed.

Lemma callback_establishes_session_witness :
  let h := Scenario.fresh {[ "session_active" := VBool true ]} in
  before_model_callback Scenario.answers_t1 h = (Ret tt, h)
  /\ state h !! "session_id" = None.
Proof.
  split; [|reflexivity].
  exact (proj2 (proj2 (proj2 (proj2
           (callback_establishes_session Scenario.answers_t1
              (Scenario.fresh {[ "session_active" := VBool true ]})))))
           eq_refl).
Defined.

(** Running [before_model_callback] again changes nothing: on the state
    it left behind it writes nothing and draws no identifier. *)
Theorem callback_idempotent self (h : Heap) :
  let h' := snd (before_model_callback self h) in
  before_model_callback self h' = (Ret tt, h').
Proof.
  pose proof (callback_state self h) as (_ & Hs). cbv zeta in *.
  assert (exists v, state (snd (before_model_callback self h))
                    !! "session_active" = Some v /\ truthy v = true)
    as (v & Hv & Ht).
  { rewrite Hs.
    destruct (state h !! "session_active") as [a|] eqn:Ha;
      [destruct (truthy a) eqn:Hta|];
      rewrite ?lookup_insert_eq; eauto. }
  revert Hv. generalize (snd (before_model_callback self h)). intros h' Hv.
  session. rewrite Hv, Ht. done.
Qed.

(** The callback and a delegation together make the agent the reported
    active one: on a session that was not yet active, or that has a
    session id, [check_active_agent] after [before_model_callback] and
    [send_message] to a registered agent names that agent. *)
Theorem active_agent_reported self format_value agent_name task (h : Heap)
    client :
  remote_agent_connections self !! agent_name = Some client ->
  session_is_active (state h) = false \/ is_Some (state h !! "session_id") ->
  let h1 := snd (before_model_callback self h) in
  let h2 := snd (send_message self agent_name task h1) in
  check_active_agent format_value (state h2)
  = VDict [("active_agent", VStr agent_name)].
Proof.
  intros Hc Hs h1 h2.
  pose proof (callback_effect self h) as (Hact & Hnew & Hkeep & _).
  pose proof (send_message_heap self agent_name task h1 client Hc)
    as (Hst & _). cbv zeta in *. fold h1 in Hact, Hnew, Hkeep, Hst.
  fold h2 in Hst.
  assert (is_Some (state h1 !! "session_id")) as [sid Hsid].
  { destruct Hs as [Hs|[v Hv]]; [by apply Hnew | by rewrite (Hkeep v Hv)]. }
  unfold session_is_active in Hact.
  destruct (state h1 !! "session_active") as [v|] eqn:Hv; [|done].
  unfold check_active_agent. rewrite Hst.
  rewrite !lookup_insert_ne by done. rewrite lookup_insert_eq, Hsid, Hv, Hact.
  done.
Qed.

Lemma active_agent_reported_witness :
  let h1 := snd (before_model_callback Scenario.answers_t1
                   (Scenario.fresh ∅)) in
  let h2 := snd (send_message Scenario.answers_t1 "TravelAgent"
                   "Plan the five days" h1) in
  check_active_agent (fun _ => "?") (state h2)
  = VDict [("active_agent", VStr "TravelAgent")].
Proof.
  exact (active_agent_reported Scenario.answers_t1 (fun _ => "?")
           "TravelAgent" "Plan the five days" (Scenario.fresh ∅)
           Scenario.travel eq_refl (or_introl eq_refl)).
Defined.

(** A delegation alone does not open a session: on a state without a
    session id, [check_active_agent] still answers "None" after
    [send_message], although [active_agent] has been written. *)
Theorem no_session_no_active_agent self format_value agent_name task
    (h : Heap) :
  state h !! "session_id" = None ->
  check_active_agent format_value
    (state (snd (send_message self agent_name task h)))
  = VDict [("active_agent", VStr "None")].
Proof.
  intros Hs.
  pose proof (send_message_frame self agent_name task h) as (Hk & _).
  cbv zeta in Hk. unfold check_active_agent.
  rewrite (Hk "session_id") by done. by rewrite Hs.
Qed.

Lemma no_session_no_active_agent_witness :
  check_active_agent (fun _ => "?")
    (state (snd (send_message Scenario.answers_t1 "TravelAgent"
                   "Plan the five days" (Scenario.fresh ∅))))
  = VDict [("active_agent", VStr "None")].
Proof.
  exact (no_session_no_active_agent Scenario.answers_t1 (fun _ => "?")
           "TravelAgent" "Plan the five days" (Scenario.fresh ∅) eq_refl).
Defined.

(** The payload of [create_send_message_payload] always validates, with
    a fresh 32-digit hex message id; it carries a task id and a context id
    exactly when a non-empty one was given. *)
Theorem payload_validates self text (task_id context_id : option string)
    (h : Heap) :
  let result := create_send_message_payload self text task_id context_id h in
  exists payload,
    fst result = Ret payload
    /\ model_validate payload
       = Ret (mkMessage "user" [text]
                (uuid_hex (uuid4_int (random_bits self (uuids_drawn h))))
                (if given task_id then task_id else None)
                (if given context_id then context_id else None))
    /\ String.length
         (uuid_hex (uuid4_int (random_bits self (uuids_drawn h)))) = 32%nat
    /\ state (snd result) = state h.
Proof.
  cbv zeta. unfold create_send_message_payload. cbn [fst snd state].
  eexists. split; [reflexivity|]. split; [|split; [|done]].
  - generalize (uuid_hex (uuid4_int (random_bits self (uuids_drawn h)))).
    intros mid.
    by destruct task_id as [[|c1 r1]|], context_id as [[|c2 r2]|].
  - unfold uuid_hex. by rewrite PyFacts.length_hex_fixed.
Qed.



Lemma tracking_name_clean (s : string) :
  Forall (fun c => c ≠ " "%char /\ c ≠ "&"%char)
    (chars (replace_char "&" "_" (replace_char " " "_" s))).
Proof.
  induction s as [|c s IH]; [constructor|].
  cbn [replace_char chars]. constructor; [|done].
  destruct (Ascii.eqb_spec c " ") as [->|Hsp]; [by split|].
  destruct (Ascii.eqb_spec c "&") as [->|Ham]; by split.
Qed.

(** The push of trace metadata never raises, whether or not the endpoint
    accepts it, and leaves the session state alone.  It posts one
    payload, with the project name, the trace id and
    [processed_status] false, and the agent name it reports contains
    neither a space nor an ampersand. *)
Theorem push_trace_is_harmless self agent_name (h : Heap) :
  let result := push_trace self agent_name h in
  fst result = Ret tt
  /\ state (snd result) = state h
  /\ exists tracking_name,
       effects (snd result)
       = (effects h
          ++ [Post trace_url
                (VDict [("agent_name", VStr tracking_name);
                        ("project_name", VStr "MakeEasyTravel");
                        ("trace_id", get_current_trace_id self);
                        ("processed_status", VBool false)])])%list
       /\ Forall (fun c => c ≠ " "%char /\ c ≠ "&"%char)
            (chars tracking_name).
Proof.
  run. destruct (requests_post self _ _); step;
    (split; [done|]); (split; [done|]);
    (eexists; split; [reflexivity|]); apply tracking_name_clean.
Qed.

End RoutingMore.

(* ===================================================================== *)
(** ** Discovery of the remote agents *)
(* ===================================================================== *)

Module DirectoryFacts.

Import Routing Directory Spec SpecMore.

Section Dicts.

Context {V : Type}.
Implicit Types (d : list (string * V)) (k : string) (v : V).

Lemma String_eqb_false k k' : k ≠ k' -> String.eqb k k' = false.
Proof. intros H. by apply String.eqb_neq. Qed.

Lemma dict_lookup_set_eq k v d : dict_lookup k (dict_set k v d) = Some v.
Proof.
  induction d as [|[k' v'] d IH]; cbn.
  - by rewrite String.eqb_refl.
  - destruct (String.eqb k k') eqn:E; cbn; by rewrite ?String.eqb_refl, ?E.
Qed.

Lemma dict_lookup_set_ne k k' v d :
  k ≠ k' -> dict_lookup k' (dict_set k v d) = dict_lookup k' d.
Proof.
  intros Hne. induction d as [|[k0 v0] d IH]; cbn.
  - by rewrite String_eqb_false.
  - destruct (String.eqb k k0) eqn:E; cbn.
    + apply String.eqb_eq in E as <-. by rewrite String_eqb_false.
    + by rewrite IH.
Qed.

Lemma dict_lookup_Some_keys k d :
  is_Some (dict_lookup k d) <-> k ∈ keys d.
Proof.
  induction d as [|[k' v'] d IH]; cbn.
  - split; [by intros [? ?] | by intros ?%elem_of_nil].
  - rewrite elem_of_cons. destruct (String.eqb_spec k k') as [->|Hne].
    + split; [by left | by eauto].
    + rewrite IH. split; [by right|]. by intros [?|?].
Qed.

Lemma keys_dict_set k v d :
  keys (dict_set k v d)
  = if bool_decide (k ∈ keys d) then keys d else (keys d ++ [k])%list.
Proof.
  unfold keys. induction d as [|[k' v'] d IH]; cbn; [done|].
  destruct (String.eqb_spec k k') as [->|Hne]; cbn.
  - rewrite bool_decide_eq_true_2 by (apply elem_of_cons; by left). done.
  - rewrite IH. destruct (bool_decide (k ∈ List.map fst d)) eqn:E.
    + apply bool_decide_eq_true in E.
      rewrite bool_decide_eq_true_2 by (apply elem_of_cons; by right). done.
    + apply bool_decide_eq_false in E.
      rewrite bool_decide_eq_false_2; [done|].
      rewrite elem_of_cons. by intros [?|?].
Qed.

Lemma NoDup_keys_dict_set k v d :
  NoDup (keys d) -> NoDup (keys (dict_set k v d)).
Proof.
  intros Hd. rewrite keys_dict_set.
  destruct (bool_decide (k ∈ keys d)) eqn:E; [done|].
  apply bool_decide_eq_false in E. apply NoDup_app. split; [done|].
  split; [|apply NoDup_singleton].
  by intros x Hx ->%list_elem_of_singleton.
Qed.

Lemma list_to_map_dict_lookup k d :
  (list_to_map d : gmap string V) !! k = dict_lookup k d.
Proof.
  induction d as [|[k' v'] d IH]; cbn; [done|].
  destruct (String.eqb_spec k k') as [->|Hne].
  - by rewrite lookup_insert_eq.
  - by rewrite lookup_insert_ne.
Qed.

End Dicts.

Section Discovery.

Variable get_agent_card : string -> Res AgentCard.
Variable json_dumps : pyval -> string.

Lemma try_address_unreachable (agent : RoutingAgent) (address : string) :
  reachable get_agent_card address = false ->
  try_address get_agent_card agent address = agent.
Proof.
  unfold reachable, try_address.
  by destruct (get_agent_card address).
Qed.

Lemma try_address_consistent (seen : list string) (agent : RoutingAgent)
    (address : string) :
  consistent get_agent_card seen agent ->
  consistent get_agent_card (seen ++ [address])
    (try_address get_agent_card agent address).
Proof.
  intros (Hk & Hnd & Hc). unfold try_address.
  destruct (get_agent_card address) as [card|e] eqn:Hf.
  - split; [|split]; cbn [remote_agent_connections cards].
    + by rewrite !keys_dict_set, Hk.
    + by apply NoDup_keys_dict_set.
    + intros n c. destruct (decide (name card = n)) as [<-|Hne].
      * rewrite !dict_lookup_set_eq. intros [= <-]. exists card.
        cbn. repeat split; [|done]. apply elem_of_app. right.
        by apply list_elem_of_singleton.
      * rewrite !dict_lookup_set_ne by done. intros Hl.
        destruct (Hc n c Hl) as (card' & ? & ? & ? & ? & ?).
        exists card'. repeat split; try done. apply elem_of_app. by left.
  - split; [done|]. split; [done|]. intros n c Hl.
    destruct (Hc n c Hl) as (card' & ? & ? & ? & ? & ?).
    exists card'. repeat split; try done. apply elem_of_app. by left.
Qed.

Lemma fold_consistent (addresses seen : list string) (agent : RoutingAgent) :
  consistent get_agent_card seen agent ->
  consistent get_agent_card (seen ++ addresses)
    (fold_left (try_address get_agent_card) addresses agent).
Proof.
  revert seen agent. induction addresses as [|a addresses IH];
    intros seen agent H; cbn [fold_left].
  - by rewrite app_nil_r.
  - replace (seen ++ a :: addresses)%list
      with ((seen ++ [a]) ++ addresses)%list by by rewrite <- app_assoc.
    apply IH. by apply try_address_consistent.
Qed.

Lemma fold_names (addresses : list string) (agent : RoutingAgent)
    (n : string) :
  n ∈ keys (cards (fold_left (try_address get_agent_card) addresses agent))
  <-> n ∈ keys (cards agent)
      \/ exists a card,
           a ∈ addresses /\ get_agent_card a = Ret card /\ name card = n.
Proof.
  revert agent. induction addresses as [|a addresses IH]; intros agent;
    cbn [fold_left].
  - split; [by left|]. by intros [?|(a & card & Ha%elem_of_nil & _)].
  - rewrite IH. unfold try_address at 1.
    destruct (get_agent_card a) as [card|e] eqn:Hf; cbn [cards].
    + rewrite keys_dict_set. split.
      * intros [Hin|(a' & card' & Ha' & Hf' & Hn)].
        -- destruct (bool_decide (name card ∈ keys (cards agent))) eqn:E;
             [by left|].
           apply elem_of_app in Hin as [?|Hn]; [by left|].
           apply list_elem_of_singleton in Hn as ->.
           right. exists a, card. split; [apply elem_of_cons; by left|done].
        -- right. exists a', card'.
           split; [apply elem_of_cons; by right|done].
      * intros [Hin|(a' & card' & Ha' & Hf' & Hn)].
        -- left. destruct (bool_decide _); [done|].
           apply elem_of_app. by left.
        -- apply elem_of_cons in Ha' as [->|Ha'].
           ++ left. rewrite Hf in Hf'. injection Hf' as ->. subst n.
              destruct (bool_decide (name card' ∈ keys (cards agent))) eqn:E.
              ** by apply bool_decide_eq_true in E.
              ** apply elem_of_app. right. by apply list_elem_of_singleton.
           ++ right. by exists a', card'.
    + split.
      * intros [?|(a' & card' & Ha' & Hf' & Hn)]; [by left|].
        right. exists a', card'. split; [apply elem_of_cons; by right|done].
      * intros [?|(a' & card' & Ha' & Hf' & Hn)]; [by left|].
        apply elem_of_cons in Ha' as [->|Ha']; [congruence|].
        right. by exists a', card'.
Qed.

Lemma init_consistent : consistent get_agent_card [] init.
Proof.
  split; [done|]. split; [constructor|]. intros n c [=].
Qed.

(** Discovery never fails, and what it registers is exactly what
    answered: a name is in the directory if and only if some address of
    the list returned a card with that name.  An address whose fetch
    raised contributes nothing. *)
Theorem discovery_registers_what_answered (addresses : list string)
    (n : string) :
  n ∈ keys (remote_agent_connections
              (create get_agent_card json_dumps addresses))
  <-> exists a card,
        a ∈ addresses /\ get_agent_card a = Ret card /\ name card = n.
Proof.
  unfold create, _async_init_components. cbn [remote_agent_connections].
  destruct (fold_consistent addresses [] init init_consistent) as (-> & _).
  rewrite fold_names. split; [|by right].
  by intros [?%elem_of_nil|?].
Qed.

Lemma discovery_consistent_aux (addresses : list string) :
  consistent get_agent_card addresses
    (create get_agent_card json_dumps addresses).
Proof.
  exact (fold_consistent addresses [] init init_consistent).
Qed.

(** After discovery the connections and the cards carry the same names
    in the same order, no name twice; the connection under a name points
    at an address of the list, and the card under that name is the one
    that address returned. *)
Theorem discovery_is_consistent (addresses : list string) :
  consistent get_agent_card addresses
    (create get_agent_card json_dumps addresses).
Proof.
  exact (fold_consistent addresses [] init init_consistent).
Qed.

(** Unreachable addresses do not matter: discovery over a list gives the
    same directory, roster and prompt text as discovery over the
    addresses of the list that answer. *)
Theorem unreachable_addresses_are_skipped (addresses : list string) :
  create get_agent_card json_dumps addresses
  = create get_agent_card json_dumps
      (List.filter (reachable get_agent_card) addresses).
Proof.
  unfold create, _async_init_components.
  assert (forall agent,
            fold_left (try_address get_agent_card) addresses agent
            = fold_left (try_address get_agent_card)
                (List.filter (reachable get_agent_card) addresses) agent)
    as ->; [|done].
  induction addresses as [|a addresses IH]; intros agent; [done|].
  cbn [List.filter fold_left].
  destruct (reachable get_agent_card a) eqn:Hr; cbn [fold_left].
  - apply IH.
  - rewrite (try_address_unreachable _ _ Hr). apply IH.
Qed.

Lemma list_remote_agents_map (agent : RoutingAgent) :
  list_remote_agents agent
  = List.map (fun kc => VDict [("name", VStr (name (snd kc)));
                               ("description", VStr (description (snd kc)))])
      (cards agent).
Proof. unfold list_remote_agents. by destruct (cards agent). Qed.

(** The roster shows one entry per registered agent, in the order of
    registration, with the name under which [send_message] will find the
    connection; no name appears twice. *)
Theorem roster_matches_directory (addresses : list string) :
  let agent := create get_agent_card json_dumps addresses in
  roster_names (list_remote_agents agent)
  = List.map (fun n => Some (VStr n)) (keys (remote_agent_connections agent))
  /\ NoDup (keys (remote_agent_connections agent))
  /\ length (list_remote_agents agent)
     = length (remote_agent_connections agent).
Proof.
  cbv zeta.
  destruct (discovery_consistent_aux addresses) as (Hk & Hnd & Hc).
  generalize dependent (create get_agent_card json_dumps addresses).
  intros agent Hk Hnd Hc. rewrite Hk. split; [|split; [done|]].
  - rewrite list_remote_agents_map. unfold roster_names.
    assert (forall n card, dict_lookup n (cards agent) = Some card ->
                           name card = n) as Hname.
    { intros n card Hl.
      assert (is_Some (dict_lookup n (remote_agent_connections agent)))
        as [c Hcn].
      { apply dict_lookup_Some_keys. rewrite Hk.
        apply dict_lookup_Some_keys. eauto. }
      destruct (Hc n c Hcn) as (card' & Hl' & Hn & _). congruence. }
    clear Hk Hc. revert Hnd Hname. unfold keys.
    induction (cards agent) as [|[k card] cs IH]; intros Hnd Hname; [done|].
    cbn. f_equal.
    + f_equal. f_equal. apply (Hname k card). cbn.
      by rewrite String.eqb_refl.
    + apply NoDup_cons in Hnd as [Hk' Hnd]. apply IH; [done|].
      intros n card' Hl. apply Hname. cbn.
      destruct (String.eqb_spec n k) as [->|Hne]; [|done].
      exfalso. apply Hk'.
      change (k ∈ keys cs). apply dict_lookup_Some_keys. eauto.
  - rewrite list_remote_agents_map, length_map.
    apply (f_equal length) in Hk. unfold keys in Hk.
    by rewrite !length_map in Hk.
Qed.

(** Delegation follows the directory that discovery produced: a name of
    the directory is accepted by [send_message], which starts by recording
    it as the active agent; any other name is turned away with the
    "not found" error before anything is written or sent. *)
Theorem delegation_follows_directory (self : World)
    (addresses : list string) (n task : string) (h : Heap) :
  let agent := create get_agent_card json_dumps addresses in
  let result := send_message (with_directory self agent) n task h in
  (n ∈ keys (remote_agent_connections agent) ->
   exists rest,
     effects (snd result)
     = (effects h ++ SetState "active_agent" (VStr n) :: rest)%list)
  /\ (n ∉ keys (remote_agent_connections agent) ->
      result = (Raise (ValueError ("Agent " +:+ n +:+ " not found")),
                tick h)).
Proof.
  cbv zeta. split; intros Hn.
  - apply dict_lookup_Some_keys in Hn as [c Hc].
    rewrite <- list_to_map_dict_lookup in Hc.
    destruct (RoutingFacts.send_message_heap
                (with_directory self
                   (create get_agent_card json_dumps addresses))
                n task h c Hc) as (_ & rest & He & _).
    by exists rest.
  - apply RoutingFacts.send_message_unregistered.
    cbn [Routing.remote_agent_connections with_directory].
    rewrite list_to_map_dict_lookup.
    destruct (dict_lookup n _) as [c|] eqn:Hc; [|done].
    exfalso. apply Hn. apply dict_lookup_Some_keys. eauto.
Qed.

End Discovery.

End DirectoryFacts.

(* ===================================================================== *)
(** ** Configuration of the two leaf agents *)
(* ===================================================================== *)

Module ConfigFacts.

Import AgentConfig SpecMore.

Lemma rstrip_app_char (c : ascii) (s : string) :
  rstrip c (s +:+ String c "") = rstrip c s.
Proof.
  induction s as [|a s IH].
  - rewrite PyFacts.append_nil. cbn [rstrip]. by rewrite Ascii.eqb_refl.
  - rewrite PyFacts.append_cons. cbn [rstrip]. by rewrite IH.
Qed.

Lemma rstrip_ends (c : ascii) (s : string) : ends_with c (rstrip c s) = false.
Proof.
  induction s as [|a s IH]; [done|]. cbn [rstrip].
  destruct (rstrip c s) as [|b r] eqn:E.
  - destruct (Ascii.eqb a c) eqn:Eac; [done|]. cbn. done.
  - cbn [ends_with] in *. done.
Qed.

Lemma rstrip_split (c : ascii) (s : string) :
  exists n, s = rstrip c s +:+ repeat_char c n.
Proof.
  induction s as [|a s (n & IH)]; [by exists 0%nat|]. cbn [rstrip].
  destruct (rstrip c s) as [|b r] eqn:E.
  - destruct (Ascii.eqb_spec a c) as [->|Hne].
    + exists (S n). cbn. by rewrite IH at 1.
    + exists n. rewrite !PyFacts.append_cons. by rewrite IH at 1.
  - exists n. rewrite PyFacts.append_cons. by rewrite IH at 1.
Qed.

Lemma create_agent_cases agent_name agent_description
    (environ : gmap string string) :
  fails_or_configured agent_name environ
    (create_agent agent_name agent_description environ).
Proof.
  unfold create_agent, fails_or_configured.
  destruct (environ !! "AZURE_OPENAI_ENDPOINT") as [[|e1 e]|];
    destruct (environ !! "AZURE_OPENAI_MODEL") as [[|m1 m]|];
    destruct (environ !! "AZURE_OPENAI_API_KEY") as [[|k1 k]|];
    cbn; try done.
  by eexists _, _, _.
Qed.

(** Both factories fail fast: each raises the one [ValueError] about
    missing configuration exactly when one of the three variables is unset
    or empty, and otherwise returns its agent, with the model
    "azure/<deployment>", the key as given and no tools. *)
Theorem factories_fail_fast (environ : gmap string string) :
  fails_or_configured "budget_agent" environ (create_budget_agent environ)
  /\ fails_or_configured "travel_planner_agent" environ
       (create_travel_planner_agent environ).
Proof. split; apply create_agent_cases. Qed.

Lemma api_base_of agent_name agent_description
    (environ : gmap string string) (agent : LlmAgent) (endpoint : string) :
  create_agent agent_name agent_description environ = Ret agent ->
  environ !! "AZURE_OPENAI_ENDPOINT" = Some endpoint ->
  api_base (llm agent) = rstrip "/" endpoint +:+ "/".
Proof.
  unfold create_agent. intros H He. rewrite He in H.
  destruct (environ !! "AZURE_OPENAI_MODEL") as [m|]; [|done].
  destruct (environ !! "AZURE_OPENAI_API_KEY") as [k|]; [|done].
  destruct (negb _); [done|]. by injection H as <-.
Qed.

(** The API base handed to the model client ends in exactly one slash:
    it is the configured endpoint with all its trailing slashes replaced
    by one. *)
Theorem api_base_has_one_trailing_slash (environ : gmap string string)
    (agent : LlmAgent) (endpoint : string) :
  create_budget_agent environ = Ret agent
  \/ create_travel_planner_agent environ = Ret agent ->
  environ !! "AZURE_OPENAI_ENDPOINT" = Some endpoint ->
  exists stem n,
    endpoint = stem +:+ repeat_char "/" n
    /\ ends_with "/" stem = false
    /\ api_base (llm agent) = stem +:+ "/".
Proof.
  intros H He. destruct (rstrip_split "/" endpoint) as (n & Hn).
  exists (rstrip "/" endpoint), n. split; [done|].
  split; [apply rstrip_ends|].
  destruct H as [H|H]; by apply (api_base_of _ _ _ _ _ H He).
Qed.

Lemma api_base_has_one_trailing_slash_witness :
  exists agent,
    create_budget_agent ScenarioMore.environ = Ret agent
    /\ exists stem n,
         "https://res.openai.azure.com//" = stem +:+ repeat_char "/" n
         /\ ends_with "/" stem = false
         /\ api_base (llm agent) = stem +:+ "/".
Proof.
  eexists. split; [reflexivity|].
  refine (api_base_has_one_trailing_slash ScenarioMore.environ _
            "https://res.openai.azure.com//" (or_introl eq_refl) eq_refl).
Defined.

(** One more trailing slash on the endpoint changes nothing: the two
    environments give the same agents. *)
Theorem extra_trailing_slash_is_irrelevant (environ : gmap string string)
    (endpoint : string) :
  environ !! "AZURE_OPENAI_ENDPOINT" = Some endpoint ->
  endpoint ≠ "" ->
  let environ' :=
    <["AZURE_OPENAI_ENDPOINT" := endpoint +:+ "/"]> environ in
  create_budget_agent environ' = create_budget_agent environ
  /\ create_travel_planner_agent environ'
     = create_travel_planner_agent environ.
Proof.
  intros He Hne. cbv zeta.
  assert (forall nm ds,
            create_agent nm ds
              (<["AZURE_OPENAI_ENDPOINT" := endpoint +:+ "/"]> environ)
            = create_agent nm ds environ) as H; [|by split; apply H].
  intros nm ds. unfold create_agent.
  rewrite lookup_insert_eq, !lookup_insert_ne by done. rewrite He.
  destruct (environ !! "AZURE_OPENAI_MODEL") as [m|]; [|done].
  destruct (environ !! "AZURE_OPENAI_API_KEY") as [k|]; [|done].
  rewrite rstrip_app_char.
  destruct endpoint as [|c r]; [done|]. done.
Qed.

Lemma extra_trailing_slash_is_irrelevant_witness :
  create_budget_agent
    (<["AZURE_OPENAI_ENDPOINT" := "https://res.openai.azure.com//" +:+ "/"]>
       ScenarioMore.environ)
  = create_budget_agent ScenarioMore.environ.
Proof.
  refine (proj1 (extra_trailing_slash_is_irrelevant ScenarioMore.environ
                   "https://res.openai.azure.com//" eq_refl _)).
  discriminate.
Defined.

End ConfigFacts.
